(** * PypeIt [pypeit/scripts/trace_edges.py]: slit-edge tracing driver

    A shallow embedding of the script's [main] function and of the Python
    built-ins it relies on, together with the properties of its
    orchestration: input resolution, calibration-group selection, master
    keys, plate scale, and the error policy of the two tracing paths. *)

From Stdlib Require Import ZArith List String Ascii Bool Lia QArith.
From Stdlib Require Import DecimalString.
From Stdlib Require DecimalPos DecimalZ.
Import ListNotations.

Local Open Scope string_scope.
Local Open Scope Z_scope.

(* ================================================================== *)
(** ** Exceptions *)

(** The exceptions that can leave [main].  [FileNotFoundError] and
    [ValueError] are raised by the script itself; [IndexError] and
    [TypeError] come from Python indexing and from [os.path.isfile(None)];
    [CollabError] stands for anything a collaborator module raises. *)
Inductive exn : Type :=
| FileNotFoundError (msg : string)
| ValueError (msg : string)
| IndexError
| TypeError
| CollabError (what : string).

(* ================================================================== *)
(** ** Python built-ins *)

Module Py.

(** [str(n)] for an [int]. *)
Definition str (n : Z) : string := NilZero.string_of_int (Z.to_int n).

Fixpoint zeros (n : nat) : string :=
  match n with
  | O => EmptyString
  | S k => String "0" (zeros k)
  end.

(** [s.zfill(width)]: pad on the left with ['0'] up to [width]; a leading
    sign stays in front of the padding. *)
Definition zfill (width : nat) (s : string) : string :=
  if (width <=? String.length s)%nat then s
  else
    let fill := (width - String.length s)%nat in
    match s with
    | String c r =>
        if (Ascii.eqb c "+" || Ascii.eqb c "-")%bool
        then String c (zeros fill ++ r)
        else zeros fill ++ s
    | EmptyString => zeros fill
    end.

(** [s.split(sep)] for a one-character separator. *)
Fixpoint split (sep : ascii) (s : string) : list string :=
  match s with
  | EmptyString => [EmptyString]
  | String c r =>
      match split sep r with
      | [] => [String c EmptyString]
      | w :: ws =>
          if Ascii.eqb c sep then EmptyString :: w :: ws
          else String c w :: ws
      end
  end.

(** [sep.join(parts)]. *)
Definition join (sep : string) (parts : list string) : string :=
  String.concat sep parts.

(** [s.rstrip(c)]. *)
Fixpoint rstrip (c : ascii) (s : string) : string :=
  match s with
  | EmptyString => EmptyString
  | String a r =>
      match rstrip c r with
      | EmptyString => if Ascii.eqb a c then EmptyString else String a EmptyString
      | r' => String a r'
      end
  end.

(** [s == c * len(s)]. *)
Fixpoint all_char (c : ascii) (s : string) : bool :=
  match s with
  | EmptyString => true
  | String a r => Ascii.eqb a c && all_char c r
  end.

Fixpoint endswith_char (c : ascii) (s : string) : bool :=
  match s with
  | EmptyString => false
  | String a EmptyString => Ascii.eqb a c
  | String _ r => endswith_char c r
  end.

(** [l[i]] on a sequence: negative indices count from the end, anything
    out of range raises [IndexError]. *)
Definition getitem {A : Type} (l : list A) (i : Z) : exn + A :=
  let n := Z.of_nat (List.length l) in
  let j := if i <? 0 then i + n else i in
  if (j <? 0) || (n <=? j) then inl IndexError
  else match nth_error l (Z.to_nat j) with
       | Some x => inr x
       | None => inl IndexError
       end.

End Py.

(* ================================================================== *)
(** ** [os.path] on POSIX *)

Module PosixPath.

Definition sep : ascii := "/"%char.

Definition isabs (p : string) : bool := String.prefix "/" p.

(** Cut [p] after its last separator: [(Some p[:i], p[i:])] with
    [i = p.rfind('/') + 1], or [(None, p)] when there is no separator. *)
Fixpoint cut_last_sep (p : string) : option string * string :=
  match p with
  | EmptyString => (None, EmptyString)
  | String c r =>
      match cut_last_sep r with
      | (Some h, t) => (Some (String c h), t)
      | (None, t) =>
          if Ascii.eqb c sep then (Some (String c EmptyString), t)
          else (None, String c t)
      end
  end.

(** [os.path.split(p)]. *)
Definition split (p : string) : string * string :=
  let (h, tail) := cut_last_sep p in
  let head := match h with Some h' => h' | None => EmptyString end in
  let head' :=
    if negb (String.eqb head EmptyString) && negb (Py.all_char sep head)
    then Py.rstrip sep head else head in
  (head', tail).

(** [os.path.join(a, b)]. *)
Definition join (a b : string) : string :=
  if String.prefix "/" b then b
  else if String.eqb a EmptyString || Py.endswith_char sep a then a ++ b
  else a ++ "/" ++ b.

(** The component loop of [normpath]; [new_comps] is kept reversed. *)
Fixpoint norm_comps (initial_slashes : nat) (comps : list string)
         (new_comps : list string) : list string :=
  match comps with
  | [] => List.rev new_comps
  | comp :: rest =>
      if String.eqb comp EmptyString || String.eqb comp "." then
        norm_comps initial_slashes rest new_comps
      else if negb (String.eqb comp "..")
              || (Nat.eqb initial_slashes 0
                  && match new_comps with [] => true | _ => false end)
              || match new_comps with
                 | last :: _ => String.eqb last ".."
                 | [] => false
                 end
      then norm_comps initial_slashes rest (comp :: new_comps)
      else match new_comps with
           | _ :: popped => norm_comps initial_slashes rest popped
           | [] => norm_comps initial_slashes rest new_comps
           end
  end.

(** [os.path.normpath(path)]. *)
Definition normpath (path : string) : string :=
  if String.eqb path EmptyString then "."
  else
    let initial_slashes :=
      if String.prefix "/" path then
        if String.prefix "//" path && negb (String.prefix "///" path)
        then 2%nat else 1%nat
      else 0%nat in
    let comps := norm_comps initial_slashes (Py.split sep path) [] in
    let path' := Py.join "/" comps in
    let path'' :=
      match initial_slashes with
      | O => path'
      | S O => "/" ++ path'
      | _ => "//" ++ path'
      end in
    if String.eqb path'' EmptyString then "." else path''.

(** [os.path.abspath(path)] in a process whose working directory is
    [cwd]. *)
Definition abspath (cwd : string) (path : string) : string :=
  normpath (if isabs path then path else join cwd path).

End PosixPath.

(* ================================================================== *)
(** ** numpy *)

Module Np.

Section Unique.
Context {A : Type} (leb : A -> A -> bool) (eqb : A -> A -> bool).

Fixpoint insert (x : A) (l : list A) : list A :=
  match l with
  | [] => [x]
  | y :: t => if leb x y then x :: l else y :: insert x t
  end.

(** [ar.sort()] in the order [leb] of the array's dtype. *)
Fixpoint sort (l : list A) : list A :=
  match l with
  | [] => []
  | x :: t => insert x (sort t)
  end.

(** The mask [aux[1:] != aux[:-1]]: keep an element when it differs
    from its left neighbour. *)
Fixpoint keep_changes (prev : A) (l : list A) : list A :=
  match l with
  | [] => []
  | x :: t => if eqb x prev then keep_changes x t else x :: keep_changes x t
  end.

(** [np.unique(ar)]: the sorted unique values. *)
Definition unique (ar : list A) : list A :=
  match sort ar with
  | [] => []
  | x :: t => x :: keep_changes x t
  end.

(** [x in ar], that is [(ar == x).any()]. *)
Definition contains (x : A) (ar : list A) : bool := existsb (eqb x) ar.
End Unique.

(** [np.arange(n)]. *)
Definition arange (n : Z) : list Z := map Z.of_nat (seq 0 (Z.to_nat n)).

End Np.

(* ================================================================== *)
(** ** State and exceptions *)

Section Monad.
Context {S : Type}.

(** A computation on a state [S] that returns a value or raises; the
    state reached when it raises is kept. *)
Definition M (A : Type) : Type := S -> S * (exn + A).

Definition ret {A : Type} (a : A) : M A := fun s => (s, inr a).

Definition raise {A : Type} (e : exn) : M A := fun s => (s, inl e).

Definition bind {A B : Type} (m : M A) (k : A -> M B) : M B :=
  fun s =>
    match m s with
    | (s', inl e) => (s', inl e)
    | (s', inr a) => k a s'
    end.

Definition lift {A : Type} (r : exn + A) : M A := fun s => (s, r).

(** [try: body / except: pass]. *)
Definition try_except_pass (body : M unit) : M unit :=
  fun s => (fst (body s), inr tt).

(** [for x in xs: body]. *)
Fixpoint for_each {A : Type} (xs : list A) (body : A -> M unit) : M unit :=
  match xs with
  | [] => ret tt
  | x :: rest => bind (body x) (fun _ => for_each rest body)
  end.

End Monad.
Arguments M : clear implicits.

Definition outcome {A : Type} (r : exn + A) : option exn :=
  match r with
  | inl e => Some e
  | inr _ => None
  end.

Declare Scope script_scope.
Delimit Scope script_scope with script.
Notation "x <- m ;; k" := (bind m (fun x => k))
  (at level 100, m at next level, right associativity) : script_scope.
Notation "m ;;; k" := (bind m (fun _ => k))
  (at level 100, right associativity) : script_scope.

(* ================================================================== *)
(** ** The script *)

Section Script.

(** The types the script only passes around:
    [W] the state of everything outside the script (file system,
    collaborator modules); [G] the values of the metadata table's
    ['calib'] column; [Num] the numbers plate scales are made of;
    [Par] a parameter set; [Img] a [TraceImage] object and [Pix] its
    pixel data; [Edges] an [EdgeTraceSet]; [Slits] a [TraceSlits]. *)
Context {W G Num Par Img Pix Edges Slits : Type}.

(** Comparison, order, [str()] and [int()] of group values. *)
Context (G_eqb : G -> G -> bool) (G_leb : G -> G -> bool)
        (G_str : G -> string) (G_int : G -> exn + Z).

(** *** Data *)

(** The namespace returned by [parser()]. *)
Record Args : Type := mkArgs {
  pypeit_file : option string;
  trace_file : option string;
  group : option G;
  detector : option Z;
  spectrograph : option string;
  binning : option string;
  redux_path : option string;
  master_dir : string;
  overwrite : bool;
  debug : bool;
  use_new : bool
}.

Record DetectorPar : Type := mkDetectorPar {
  platescale : Num
}.

(** [par['calibrations']]: the parameter sets the script selects from. *)
Record CalibrationsPar : Type := mkCalibrationsPar {
  traceframe : Par;
  slitedges : Par;
  slits : Par
}.

Record PypeItPar : Type := mkPypeItPar {
  calibrations : CalibrationsPar
}.

Record Spectrograph : Type := mkSpectrograph {
  ndet : Z;
  spec_detector : list DetectorPar;
  default_pypeit_par : PypeItPar
}.

(** [rdx.fitstbl]: the two columns and the three methods the script uses. *)
Record PypeItMetaData : Type := mkPypeItMetaData {
  calib : list G;
  binning_column : list string;
  find_frames : string -> Z -> exn + list Z;
  master_key : Z -> exn + string;
  frame_paths : list Z -> exn + list string
}.

(** A [PypeIt] object. *)
Record PypeItObj : Type := mkPypeItObj {
  rdx_spectrograph : Spectrograph;
  fitstbl : PypeItMetaData;
  caliBrate_par : CalibrationsPar
}.

(** The collaborators: the operating system and the modules the script
    imports.  A call that has an effect, or can fail depending on the
    outside world, transforms [W]. *)
Record Collab : Type := mkCollab {
  os_getcwd : W -> string;
  os_path_isfile : W -> string -> bool;
  load_spectrograph : option string -> W -> W * (exn + Spectrograph);
  PypeIt : string -> string -> W -> W * (exn + PypeItObj);
  parse_binning : string -> exn + (Z * Z);
  int_mul : Z -> Num -> Num;
  TraceImage : Spectrograph -> list string -> Z -> Par -> W -> W * (exn + Img);
  build_image : Img -> W -> W * (exn + Img);
  image : Img -> Pix;
  EdgeTraceSet :
    Spectrograph -> Par -> string -> string -> Img -> Z -> bool -> W -> W * (exn + Edges);
  EdgeTraceSet_save : Edges -> W -> W * (exn + unit);
  TraceSlits :
    Spectrograph -> Par -> Z -> string -> string -> W -> W * (exn + Slits);
  TraceSlits_run :
    Slits -> Pix -> string -> Num -> bool -> W -> W * (exn + Slits);
  TraceSlits_save : Slits -> Img -> W -> W * (exn + unit);
  stdout_print : Z -> W -> W * (exn + unit)
}.

(** *** Observable calls *)

Inductive Call : Type :=
| CLoadSpectrograph (name : option string)
| CPypeIt (file redux : string)
| CTraceImage (det : Z) (files : list string)
| CBuildImage (det : Z)
| CEdgeTraceSet (det : Z) (key dir : string)
| CEdgeSave (det : Z) (key dir : string)
| CTraceSlits (det : Z) (key dir : string)
| CTraceSlitsRun (det : Z) (binning : string) (plate_scale : Num)
| CTraceSlitsSave (det : Z) (key dir : string)
| CPrint (det : Z).

(** A call together with what it raised, if anything. *)
Definition Event : Type := (Call * option exn)%type.

Record State : Type := mkState {
  world : W;
  log : list Event
}.

(** Call a collaborator and record the call with its outcome. *)
Definition call {A : Type} (c : Call) (f : W -> W * (exn + A)) : M State A :=
  fun s =>
    let (w', r) := f (world s) in
    (mkState w' (log s ++ [(c, outcome r)]), r).

(** *** [main] *)

Local Open Scope script_scope.

Variable C : Collab.

(** [os.path.isfile(path)]; [None] is not a path. *)
Definition isfile (path : option string) : M State bool :=
  fun s =>
    match path with
    | None => (s, inl TypeError)
    | Some p => (s, inr (os_path_isfile C (world s) p))
    end.

(** [os.path.abspath(path)]. *)
Definition abspath (path : string) : M State string :=
  fun s => (s, inr (PosixPath.abspath (os_getcwd C (world s)) path)).

(** [print('Tracing for detector {0} finished in {1} s.'.format(det, ...))]:
    a write to standard output, which can raise like any other call.  The
    elapsed time in the line is not modelled. *)
Definition print (det : Z) : M State unit :=
  call (CPrint det) (stdout_print C det).

(** Line 72: the group given on the command line, else the first of the
    table's sorted unique group values. *)
Definition select_group (g : option G) (calib_column : list G) : exn + G :=
  match g with
  | None => Py.getitem (Np.unique G_leb G_eqb calib_column) 0
  | Some g' => inr g'
  end.

(** Lines 73-74. *)
Definition validate_group (g : G) (calib_column : list G) : exn + unit :=
  if negb (Np.contains G_eqb g (Np.unique G_leb G_eqb calib_column))
  then inl (ValueError ("Not a valid calibration group: " ++ G_str g))
  else inr tt.

(** What both input modes hand to the detector loop. *)
Record Inputs : Type := mkInputs {
  in_spec : Spectrograph;
  in_master_key_base : string;
  in_binning : string;
  in_files : list string;
  in_redux_path : string;
  in_proc_par : Par;
  in_trace_par : Par
}.

(** Lines 61-87: the inputs from a PypeIt reduction file. *)
Definition resolve_pypeit_file (args : Args) (file : string) : M State Inputs :=
  exists_ <- isfile (Some file) ;;
  if negb exists_ then raise (FileNotFoundError ("File does not exist: " ++ file))
  else
  pypeit_file' <- abspath file ;;
  redux_path' <- abspath (match redux_path args with
                          | None => fst (PosixPath.split pypeit_file')
                          | Some p => p
                          end) ;;
  rdx <- call (CPypeIt pypeit_file' redux_path') (PypeIt C pypeit_file' redux_path') ;;
  let spec := rdx_spectrograph rdx in
  group' <- lift (select_group (group args) (calib (fitstbl rdx))) ;;
  lift (validate_group group' (calib (fitstbl rdx))) ;;;
  calib_ID <- lift (G_int group') ;;
  tbl_rows <- lift (find_frames (fitstbl rdx) "trace" calib_ID) ;;
  row0 <- lift (Py.getitem tbl_rows 0) ;;
  key <- lift (master_key (fitstbl rdx) row0) ;;
  let master_key_base := Py.join "_" (firstn 2 (Py.split "_" key)) in
  binning' <- lift (Py.getitem (binning_column (fitstbl rdx)) row0) ;;
  files <- lift (frame_paths (fitstbl rdx) tbl_rows) ;;
  let proc_par := traceframe (caliBrate_par rdx) in
  let trace_par := if use_new args then slitedges (caliBrate_par rdx)
                   else slits (caliBrate_par rdx) in
  ret (mkInputs spec master_key_base binning' files redux_path' proc_par trace_par).

(** Lines 89-100: the inputs from a single trace image. *)
Definition resolve_trace_file (args : Args) : M State Inputs :=
  spec <- call (CLoadSpectrograph (spectrograph args))
               (load_spectrograph C (spectrograph args)) ;;
  let master_key_base := "A_1" in
  let binning' := match binning args with None => "1,1" | Some b => b end in
  exists_ <- isfile (trace_file args) ;;
  match trace_file args with
  | None => raise TypeError
  | Some file =>
      if negb exists_ then raise (FileNotFoundError ("File does not exist: " ++ file))
      else
      file' <- abspath file ;;
      let files := [file'] in
      redux_path' <- abspath (match redux_path args with
                              | None => fst (PosixPath.split file')
                              | Some p => p
                              end) ;;
      let par := default_pypeit_par spec in
      let proc_par := traceframe (calibrations par) in
      let trace_par := if use_new args then slitedges (calibrations par)
                       else slits (calibrations par) in
      ret (mkInputs spec master_key_base binning' files redux_path' proc_par trace_par)
  end.

(** Lines 60-100. *)
Definition resolve_inputs (args : Args) : M State Inputs :=
  match pypeit_file args with
  | Some file => resolve_pypeit_file args file
  | None => resolve_trace_file args
  end.

(** Line 102. *)
Definition detectors (args : Args) (spec : Spectrograph) : list Z :=
  match detector args with
  | None => map (fun i => i + 1) (Np.arange (ndet spec))
  | Some d => [d]
  end.

(** Line 106: ['{0}_{1}'.format(master_key_base, str(det).zfill(2))]. *)
Definition make_master_key (master_key_base : string) (det : Z) : string :=
  master_key_base ++ "_" ++ Py.zfill 2 (Py.str det).

(** Line 116:
    [parse.parse_binning(binning)[1]*spec.detector[det-1]['platescale']]. *)
Definition get_plate_scale (spec : Spectrograph) (binning' : string) (det : Z)
  : exn + Num :=
  match parse_binning C binning' with
  | inl e => inl e
  | inr bin =>
      match Py.getitem (spec_detector spec) (det - 1) with
      | inl e => inl e
      | inr d => inr (int_mul C (snd bin) (platescale d))
      end
  end.

(** Lines 119-128: the new tracer, inside [try: ... except: pass]. *)
Definition trace_new (inp : Inputs) (master_dir' : string) (det : Z)
           (key : string) (traceImage : Img) : M State unit :=
  try_except_pass
    (edges <- call (CEdgeTraceSet det key master_dir')
                   (EdgeTraceSet C (in_spec inp) (in_trace_par inp) key master_dir'
                                 traceImage det true) ;;
     print det ;;;
     call (CEdgeSave det key master_dir') (EdgeTraceSet_save C edges)).

(** Lines 129-135: the legacy tracer. *)
Definition trace_legacy (inp : Inputs) (master_dir' : string) (det : Z)
           (key : string) (traceImage : Img) (plate_scale : Num) : M State unit :=
  traceSlits <- call (CTraceSlits det key master_dir')
                     (TraceSlits C (in_spec inp) (in_trace_par inp) det key master_dir') ;;
  traceSlits' <- call (CTraceSlitsRun det (in_binning inp) plate_scale)
                      (TraceSlits_run C traceSlits (image C traceImage) (in_binning inp)
                                      plate_scale false) ;;
  print det ;;;
  call (CTraceSlitsSave det key master_dir') (TraceSlits_save C traceSlits' traceImage).

(** Lines 105-135: the body of the detector loop. *)
Definition trace_detector (args : Args) (inp : Inputs) (master_dir' : string)
           (det : Z) : M State unit :=
  let key := make_master_key (in_master_key_base inp) det in
  traceImage <- call (CTraceImage det (in_files inp))
                     (TraceImage C (in_spec inp) (in_files inp) det (in_proc_par inp)) ;;
  traceImage' <- call (CBuildImage det) (build_image C traceImage) ;;
  plate_scale <- lift (get_plate_scale (in_spec inp) (in_binning inp) det) ;;
  if use_new args then trace_new inp master_dir' det key traceImage'
  else trace_legacy inp master_dir' det key traceImage' plate_scale.

(** Lines 102-137. *)
Definition trace_all (args : Args) (inp : Inputs) : M State Z :=
  let master_dir' := PosixPath.join (in_redux_path inp) (master_dir args) in
  for_each (detectors args (in_spec inp)) (trace_detector args inp master_dir') ;;;
  ret 0.

Definition main (args : Args) : M State Z :=
  inp <- resolve_inputs args ;;
  trace_all args inp.

End Script.

(** The status of the process that runs [main]: what [main] returns, or
    1 when an exception leaves it. *)
Definition exit_status (r : exn + Z) : Z :=
  match r with
  | inr code => code
  | inl _ => 1
  end.

(* ================================================================== *)
(** ** A binning parser and a small observatory to run the script in *)

(** Modelled from the spec: [parse_binning] of [pypeit.core.parse], which
    is not among the sources.  The spec (and the help text of [--binning])
    gives a binning string as "spectral,spatial"; this reads the two
    decimal factors around the comma, in that order, and raises on
    anything else. *)
Definition spec_parse_binning (b : string) : exn + (Z * Z) :=
  match Py.split "," b with
  | [spectral; spatial] =>
      match NilZero.int_of_string spectral, NilZero.int_of_string spatial with
      | Some x, Some y => inr (Z.of_int x, Z.of_int y)
      | _, _ => inl (ValueError "invalid binning")
      end
  | _ => inl (ValueError "invalid binning")
  end.

Module Demo.

(** The outside world: the files on disk. *)
Definition World : Type := list string.

Definition on_disk (w : World) (p : string) : bool := existsb (String.eqb p) w.

Definition pars : @CalibrationsPar string :=
  mkCalibrationsPar "traceframe" "slitedges" "slits".

(** Three detectors, plate scales 0.2, 0.25 and 0.3. *)
Definition three_det : @Spectrograph Q string :=
  mkSpectrograph 3
    [mkDetectorPar (2 # 10); mkDetectorPar (1 # 4); mkDetectorPar (3 # 10)]
    (mkPypeItPar pars).

Fixpoint rows_matching (id : Z) (col : list Z) (i : Z) : list Z :=
  match col with
  | [] => []
  | c :: t =>
      if c =? id then i :: rows_matching id t (i + 1)
      else rows_matching id t (i + 1)
  end.

(** A metadata table of trace frames with the given group column. *)
Definition table (groups : list Z) : @PypeItMetaData Z :=
  mkPypeItMetaData groups (map (fun _ => "2,1") groups)
    (fun ftype id =>
       if String.eqb ftype "trace" then inr (rows_matching id groups 0) else inr [])
    (fun row =>
       match Py.getitem groups row with
       | inl e => inl e
       | inr g => inr ("A_" ++ Py.str g ++ "_01")
       end)
    (fun rows => inr (map (fun r => "/redux/raw/frame" ++ Py.str r ++ ".fits") rows)).

(** Collaborators for a spectrograph named ["three_det"], a reduction
    file whose table has the group column [groups], and tracers that raise
    on the detectors selected by [fails].  An image is represented by its
    detector number, a tracer object by the file it saves to. *)
Definition collab (groups : list Z) (fails : Z -> bool)
  : @Collab World Z Q string Z Z string string :=
  mkCollab
    (fun _ => "/home/observer")
    on_disk
    (fun name w =>
       (w, match name with
           | Some n => if String.eqb n "three_det" then inr three_det
                       else inl (CollabError "unknown spectrograph")
           | None => inl (CollabError "unknown spectrograph")
           end))
    (fun file redux w => (w, inr (mkPypeItObj three_det (table groups) pars)))
    spec_parse_binning
    (fun n x => Qmult (inject_Z n) x)
    (fun spec files det par w => (w, inr det))
    (fun img w => (w, inr img))
    (fun img => img)
    (fun spec par key dir img det auto w =>
       (w, if fails det then inl (CollabError "edge tracing failed")
           else inr (dir ++ "/MasterEdges_" ++ key)))
    (fun edges w => ((w ++ [edges])%list, inr tt))
    (fun spec par det key dir w => (w, inr (dir ++ "/MasterTrace_" ++ key)))
    (fun slits pix binning ps qa w =>
       (w, if fails pix then inl (CollabError "slit tracing failed") else inr slits))
    (fun slits img w => ((w ++ [slits])%list, inr tt))
    (fun det w => (w, inr tt)).

(** The tracers raise on detector 2. *)
Definition second_fails (det : Z) : bool := det =? 2.

Definition disk : World := ["/data/raw/trace.fits"; "/redux/run.pypeit"].

Definition start : @State World Q := mkState disk [].

(** [main] with integer group values. *)
Definition run (groups : list Z) (fails : Z -> bool) (args : @Args Z)
  : @State World Q * (exn + Z) :=
  main Z.eqb Z.leb Py.str (fun g => inr g) (collab groups fails) args start.

(** [-t trace -s three_det] and [-f file], with every other option left
    at its default. *)
Definition raw_args (trace : string) (new : bool) : @Args Z :=
  mkArgs None (Some trace) None None (Some "three_det") None None "Masters"
         false false new.

Definition file_args (file : string) (g : option Z) (new : bool) : @Args Z :=
  mkArgs (Some file) None g None None None None "Masters" false false new.

(** Variants of [collab]: one with another answer from the spectrograph
    loader, one with another answer from the [PypeIt] constructor. *)
Definition collab_with_spec (spec : @Spectrograph Q string)
  : @Collab World Z Q string Z Z string string :=
  let c := collab [] (fun _ => false) in
  mkCollab (os_getcwd c) (os_path_isfile c) (fun _ w => (w, inr spec)) (PypeIt c)
           (parse_binning c) (int_mul c) (TraceImage c) (build_image c) (image c)
           (EdgeTraceSet c) (EdgeTraceSet_save c) (TraceSlits c) (TraceSlits_run c)
           (TraceSlits_save c) (stdout_print c).

Definition collab_with_table (tbl : @PypeItMetaData Z)
  : @Collab World Z Q string Z Z string string :=
  let c := collab [] (fun _ => false) in
  mkCollab (os_getcwd c) (os_path_isfile c) (load_spectrograph c)
           (fun file redux w => (w, inr (mkPypeItObj three_det tbl pars)))
           (parse_binning c) (int_mul c) (TraceImage c) (build_image c) (image c)
           (EdgeTraceSet c) (EdgeTraceSet_save c) (TraceSlits c) (TraceSlits_run c)
           (TraceSlits_save c) (stdout_print c).

(** A spectrograph without detectors. *)
Definition no_det : @Spectrograph Q string := mkSpectrograph 0 [] (mkPypeItPar pars).

(** A table of bias frames only: no row is a trace frame. *)
Definition bias_table (groups : list Z) : @PypeItMetaData Z :=
  mkPypeItMetaData groups (map (fun _ => "2,1") groups)
    (fun _ _ => inr [])
    (fun row => inr "A_1_01")
    (fun rows => inr []).

(** [-t trace -s three_det -d det]. *)
Definition raw_args_det (trace : string) (det : Z) (new : bool) : @Args Z :=
  mkArgs None (Some trace) None (Some det) (Some "three_det") None None "Masters"
         false false new.

End Demo.

(* ================================================================== *)
(** ** Vocabulary of the properties *)

(** The spec's [{detector:02d}], written from its words: the decimal
    digits of the detector index, padded with zeros on the left to a total
    width of 2; a minus sign stays in front and counts towards the width. *)
Definition digits (n : Z) : string := NilZero.string_of_uint (N.to_uint (Z.abs_N n)).

Definition pad_zeros (width : nat) (ds : string) : string :=
  Py.zeros (width - String.length ds) ++ ds.

Definition format_02d (det : Z) : string :=
  if det <? 0 then "-" ++ pad_zeros 1 (digits det) else pad_zeros 2 (digits det).

(** The same command line with another [--group]. *)
Definition with_group {G : Type} (args : @Args G) (g : option G) : @Args G :=
  mkArgs (pypeit_file args) (trace_file args) g (detector args)
         (spectrograph args) (binning args) (redux_path args) (master_dir args)
         (overwrite args) (debug args) (use_new args).

Section PassOutcomes.
Context {W G Num Par Img Pix Edges Slits : Type}.
Variable C : @Collab W G Num Par Img Pix Edges Slits.


(** What the collaborators answer during a pass of the loop.  Each of the
    relations below is written on the collaborators themselves: which
    function is applied to which arguments in which state of the outside
    world, what it answers, and the state [s'] the script is in after the
    answer. *)

(** From [s], the trace image of [det] is constructed from the resolved
    files and processing parameters and built, giving [img]; the plate
    scale is [ps]. *)
Definition image_ready (inp : @Inputs Num Par) (det : Z) (s : @State W Num)
           (img : Img) (ps : Num) (s' : @State W Num) : Prop :=
  exists w1 img0 w2,
    TraceImage C (in_spec inp) (in_files inp) det (in_proc_par inp) (world s)
    = (w1, inr img0)
    /\ build_image C img0 w1 = (w2, inr img)
    /\ get_plate_scale C (in_spec inp) (in_binning inp) det = inr ps
    /\ s' = mkState w2 (log s ++ [(CTraceImage det (in_files inp), None);
                                 (CBuildImage det, None)]).

(** From [s], [EdgeTraceSet] traces [img] for [det] under the master key
    of [det] in [master_dir'] with [auto=True], the line is printed, and
    [save] of the object [EdgeTraceSet] returned goes through. *)
Definition edges_saved (inp : @Inputs Num Par) (master_dir' : string) (det : Z)
           (img : Img) (s s' : @State W Num) : Prop :=
  let key := make_master_key (in_master_key_base inp) det in
  exists w1 edges w2 w3,
    EdgeTraceSet C (in_spec inp) (in_trace_par inp) key master_dir' img det true (world s)
    = (w1, inr edges)
    /\ stdout_print C det w1 = (w2, inr tt)
    /\ EdgeTraceSet_save C edges w2 = (w3, inr tt)
    /\ s' = mkState w3 (log s ++ [(CEdgeTraceSet det key master_dir', None);
                                 (CPrint det, None);
                                 (CEdgeSave det key master_dir', None)]).

(** From [s], one of the three calls inside the [try] raises: the tracer,
    [print], or [save]; nothing is called after it. *)
Definition edges_dropped (inp : @Inputs Num Par) (master_dir' : string) (det : Z)
           (img : Img) (s s' : @State W Num) : Prop :=
  let key := make_master_key (in_master_key_base inp) det in
  let traced := EdgeTraceSet C (in_spec inp) (in_trace_par inp) key master_dir' img det
                             true (world s) in
  (exists w1 e,
      traced = (w1, inl e)
      /\ s' = mkState w1 (log s ++ [(CEdgeTraceSet det key master_dir', Some e)]))
  \/ (exists w1 edges w2 e,
         traced = (w1, inr edges)
         /\ stdout_print C det w1 = (w2, inl e)
         /\ s' = mkState w2 (log s ++ [(CEdgeTraceSet det key master_dir', None);
                                      (CPrint det, Some e)]))
  \/ (exists w1 edges w2 w3 e,
         traced = (w1, inr edges)
         /\ stdout_print C det w1 = (w2, inr tt)
         /\ EdgeTraceSet_save C edges w2 = (w3, inl e)
         /\ s' = mkState w3 (log s ++ [(CEdgeTraceSet det key master_dir', None);
                                      (CPrint det, None);
                                      (CEdgeSave det key master_dir', Some e)])).


(** From [s], [TraceSlits] is constructed for [det] under its master key
    in [master_dir'], [run] on the pixels of [img] with the binning, the
    plate scale [ps] and [write_qa=False], the line is printed, and
    [save] of the object [run] left, with [img], goes through. *)
Definition slits_saved (inp : @Inputs Num Par) (master_dir' : string) (det : Z)
           (img : Img) (ps : Num) (s s' : @State W Num) : Prop :=
  let key := make_master_key (in_master_key_base inp) det in
  exists w1 t w2 t' w3 w4,
    TraceSlits C (in_spec inp) (in_trace_par inp) det key master_dir' (world s)
    = (w1, inr t)
    /\ TraceSlits_run C t (image C img) (in_binning inp) ps false w1 = (w2, inr t')
    /\ stdout_print C det w2 = (w3, inr tt)
    /\ TraceSlits_save C t' img w3 = (w4, inr tt)
    /\ s' = mkState w4 (log s ++ [(CTraceSlits det key master_dir', None);
                                 (CTraceSlitsRun det (in_binning inp) ps, None);
                                 (CPrint det, None);
                                 (CTraceSlitsSave det key master_dir', None)]).

(** From [s], one of the four calls of the legacy path raises [e]: the
    construction of [TraceSlits], [run], [print], or [save]; nothing is
    called after it. *)
Definition slits_raised (inp : @Inputs Num Par) (master_dir' : string) (det : Z)
           (img : Img) (ps : Num) (s : @State W Num) (e : exn) (s' : @State W Num)
  : Prop :=
  let key := make_master_key (in_master_key_base inp) det in
  let made := TraceSlits C (in_spec inp) (in_trace_par inp) det key master_dir'
                         (world s) in
  (exists w1,
      made = (w1, inl e)
      /\ s' = mkState w1 (log s ++ [(CTraceSlits det key master_dir', Some e)]))
  \/ (exists w1 t w2,
         made = (w1, inr t)
         /\ TraceSlits_run C t (image C img) (in_binning inp) ps false w1 = (w2, inl e)
         /\ s' = mkState w2 (log s ++ [(CTraceSlits det key master_dir', None);
                                      (CTraceSlitsRun det (in_binning inp) ps, Some e)]))
  \/ (exists w1 t w2 t' w3,
         made = (w1, inr t)
         /\ TraceSlits_run C t (image C img) (in_binning inp) ps false w1 = (w2, inr t')
         /\ stdout_print C det w2 = (w3, inl e)
         /\ s' = mkState w3 (log s ++ [(CTraceSlits det key master_dir', None);
                                      (CTraceSlitsRun det (in_binning inp) ps, None);
                                      (CPrint det, Some e)]))
  \/ (exists w1 t w2 t' w3 w4,
         made = (w1, inr t)
         /\ TraceSlits_run C t (image C img) (in_binning inp) ps false w1 = (w2, inr t')
         /\ stdout_print C det w2 = (w3, inr tt)
         /\ TraceSlits_save C t' img w3 = (w4, inl e)
         /\ s' = mkState w4 (log s ++ [(CTraceSlits det key master_dir', None);
                                      (CTraceSlitsRun det (in_binning inp) ps, None);
                                      (CPrint det, None);
                                      (CTraceSlitsSave det key master_dir', Some e)])).

(** A pass of the legacy path that ends normally: the image is ready and
    the slits are saved. *)
Definition legacy_pass (inp : @Inputs Num Par) (master_dir' : string) (det : Z)
           (s s' : @State W Num) : Prop :=
  exists img ps s0,
    image_ready inp det s img ps s0 /\ slits_saved inp master_dir' det img ps s0 s'.

(** The detectors of [ds] go through [pass] one after the other, each
    from the state the one before left. *)
Fixpoint passes (pass : Z -> @State W Num -> @State W Num -> Prop) (ds : list Z)
         (s s' : @State W Num) : Prop :=
  match ds with
  | [] => s' = s
  | det :: rest => exists s1, pass det s s1 /\ passes pass rest s1 s'
  end.

(** The same collaborators with another legacy tracer, another new
    tracer, another spectrograph loader, another [PypeIt] constructor. *)
Definition with_legacy_tracer
           (make : Spectrograph -> Par -> Z -> string -> string -> W -> W * (exn + Slits))
           (run : Slits -> Pix -> string -> Num -> bool -> W -> W * (exn + Slits))
           (save : Slits -> Img -> W -> W * (exn + unit))
  : @Collab W G Num Par Img Pix Edges Slits :=
  mkCollab (os_getcwd C) (os_path_isfile C) (load_spectrograph C) (PypeIt C)
           (parse_binning C) (int_mul C) (TraceImage C) (build_image C) (image C)
           (EdgeTraceSet C) (EdgeTraceSet_save C) make run save (stdout_print C).

Definition with_new_tracer
           (make : Spectrograph -> Par -> string -> string -> Img -> Z -> bool ->
                   W -> W * (exn + Edges))
           (save : Edges -> W -> W * (exn + unit))
  : @Collab W G Num Par Img Pix Edges Slits :=
  mkCollab (os_getcwd C) (os_path_isfile C) (load_spectrograph C) (PypeIt C)
           (parse_binning C) (int_mul C) (TraceImage C) (build_image C) (image C)
           make save (TraceSlits C) (TraceSlits_run C) (TraceSlits_save C)
           (stdout_print C).

Definition with_loader (load : option string -> W -> W * (exn + Spectrograph))
  : @Collab W G Num Par Img Pix Edges Slits :=
  mkCollab (os_getcwd C) (os_path_isfile C) load (PypeIt C)
           (parse_binning C) (int_mul C) (TraceImage C) (build_image C) (image C)
           (EdgeTraceSet C) (EdgeTraceSet_save C) (TraceSlits C) (TraceSlits_run C)
           (TraceSlits_save C) (stdout_print C).

Definition with_PypeIt (make : string -> string -> W -> W * (exn + PypeItObj))
  : @Collab W G Num Par Img Pix Edges Slits :=
  mkCollab (os_getcwd C) (os_path_isfile C) (load_spectrograph C) make
           (parse_binning C) (int_mul C) (TraceImage C) (build_image C) (image C)
           (EdgeTraceSet C) (EdgeTraceSet_save C) (TraceSlits C) (TraceSlits_run C)
           (TraceSlits_save C) (stdout_print C).

End PassOutcomes.

(** The same command line with other [--overwrite] and [--debug] flags. *)
Definition with_flags {G : Type} (args : @Args G) (o d : bool) : @Args G :=
  mkArgs (pypeit_file args) (trace_file args) (group args) (detector args)
         (spectrograph args) (binning args) (redux_path args) (master_dir args)
         o d (use_new args).

(** The same command line with other [--spectrograph] and [--binning]
    options. *)
Definition with_raw_options {G : Type} (args : @Args G) (sp b : option string)
  : @Args G :=
  mkArgs (pypeit_file args) (trace_file args) (group args) (detector args)
         sp b (redux_path args) (master_dir args)
         (overwrite args) (debug args) (use_new args).


(** Split on the result of the next collaborator call. *)
Ltac next_call :=
  match goal with
  | |- context [TraceImage ?c ?a ?b ?d ?e ?w] =>
      destruct (TraceImage c a b d e w) as [? [?|?]] eqn:?
  | |- context [build_image ?c ?a ?w] =>
      destruct (build_image c a w) as [? [?|?]] eqn:?
  | |- context [get_plate_scale ?c ?a ?b ?d] =>
      destruct (get_plate_scale c a b d) as [?|?] eqn:?
  | |- context [EdgeTraceSet ?c ?a1 ?a2 ?a3 ?a4 ?a5 ?a6 ?a7 ?w] =>
      destruct (EdgeTraceSet c a1 a2 a3 a4 a5 a6 a7 w) as [? [?|?]] eqn:?
  | |- context [EdgeTraceSet_save ?c ?a ?w] =>
      destruct (EdgeTraceSet_save c a w) as [? [?|[]]] eqn:?
  | |- context [TraceSlits ?c ?a1 ?a2 ?a3 ?a4 ?a5 ?w] =>
      destruct (TraceSlits c a1 a2 a3 a4 a5 w) as [? [?|?]] eqn:?
  | |- context [TraceSlits_run ?c ?a1 ?a2 ?a3 ?a4 ?a5 ?w] =>
      destruct (TraceSlits_run c a1 a2 a3 a4 a5 w) as [? [?|?]] eqn:?
  | |- context [TraceSlits_save ?c ?a1 ?a2 ?w] =>
      destruct (TraceSlits_save c a1 a2 w) as [? [?|[]]] eqn:?
  | |- context [stdout_print ?c ?a ?w] =>
      destruct (stdout_print c a w) as [? [?|[]]] eqn:?
  end;
  cbv beta iota zeta delta [world log fst snd outcome].

(** Unfold one pass of the detector loop. *)
Ltac open_detector :=
  unfold trace_detector, trace_new, trace_legacy, try_except_pass,
    print, bind, call, lift;
  cbv beta iota zeta.

(* ================================================================== *)
(** ** Python built-ins: facts *)

Lemma string_of_uint_nonempty (d : Decimal.uint) :
  exists c r, NilZero.string_of_uint d = String c r
              /\ Ascii.eqb c "+" = false /\ Ascii.eqb c "-" = false.
Proof.
  destruct d; simpl; eexists; eexists; repeat split; reflexivity.
Qed.

Lemma str_sign_digits (n : Z) :
  Py.str n = if n <? 0 then "-" ++ digits n else digits n.
Proof.
  destruct n; reflexivity.
Qed.

Lemma pad_zeros_enough (width : nat) (ds : string) :
  (width <= String.length ds)%nat -> pad_zeros width ds = ds.
Proof.
  intros H. unfold pad_zeros.
  replace (width - String.length ds)%nat with 0%nat by lia. reflexivity.
Qed.

(** [str(det).zfill(2)] is the spec's [{det:02d}]. *)
Lemma zfill_str_format (det : Z) : Py.zfill 2 (Py.str det) = format_02d det.
Proof.
  rewrite str_sign_digits. unfold format_02d, digits.
  destruct (string_of_uint_nonempty (N.to_uint (Z.abs_N det)))
    as (c & r & -> & Hp & Hm).
  destruct (det <? 0).
  - rewrite pad_zeros_enough by (simpl; lia).
    unfold Py.zfill. simpl. reflexivity.
  - unfold Py.zfill, pad_zeros. simpl String.length.
    destruct r as [|c' r']; simpl.
    + rewrite Hp, Hm. reflexivity.
    + reflexivity.
Qed.

Lemma getitem_nth {A : Type} (l : list A) (i : Z) :
  0 <= i < Z.of_nat (List.length l) ->
  Py.getitem l i = match nth_error l (Z.to_nat i) with
                   | Some x => inr x
                   | None => inl IndexError
                   end.
Proof.
  intros H. unfold Py.getitem.
  destruct (i <? 0) eqn:Hi; [apply Z.ltb_lt in Hi; lia|].
  rewrite Hi.
  destruct (Z.of_nat (List.length l) <=? i) eqn:Hn; [apply Z.leb_le in Hn; lia|].
  reflexivity.
Qed.

Lemma getitem_head {A : Type} (x : A) (l : list A) : Py.getitem (x :: l) 0 = inr x.
Proof.
  rewrite getitem_nth by (simpl List.length; lia). reflexivity.
Qed.

(* ================================================================== *)
(** ** numpy: facts *)

Section SortFacts.
Context {A : Type} (leb : A -> A -> bool).

Lemma insert_In (x y : A) (l : list A) :
  In y (Np.insert leb x l) <-> y = x \/ In y l.
Proof.
  induction l as [|a l IH]; simpl.
  - intuition.
  - destruct (leb x a); simpl; rewrite ?IH; intuition.
Qed.

Lemma sort_In (y : A) (l : list A) : In y (Np.sort leb l) <-> In y l.
Proof.
  induction l as [|a l IH]; simpl.
  - tauto.
  - rewrite insert_In, IH. intuition.
Qed.

Lemma sort_nonempty (l : list A) : l <> [] -> Np.sort leb l <> [].
Proof.
  destruct l as [|a l]; [congruence|]. intros _ H.
  assert (Hin : In a (Np.sort leb (a :: l))) by (apply sort_In; left; reflexivity).
  rewrite H in Hin. exact Hin.
Qed.

Hypothesis leb_total : forall a b, leb a b = true \/ leb b a = true.
Hypothesis leb_trans : forall a b c, leb a b = true -> leb b c = true -> leb a c = true.

(** Sorting puts a least element first. *)
Lemma sort_head_least (l : list A) (m : A) (t : list A) :
  Np.sort leb l = m :: t -> forall x, In x l -> leb m x = true.
Proof.
  revert m t. induction l as [|a l IH]; intros m t Hs x Hx.
  - destruct Hx.
  - simpl in Hs. destruct (Np.sort leb l) as [|m' t'] eqn:Hl.
    + assert (l = []) as ->.
      { destruct l as [|b l']; [reflexivity|].
        exfalso. eapply sort_nonempty; [|exact Hl]. congruence. }
      simpl in Hs. injection Hs as <- _.
      destruct Hx as [<-|[]]. destruct (leb_total a a); assumption.
    + simpl in Hs. destruct (leb a m') eqn:Ham.
      * injection Hs as <- _. destruct Hx as [<-|Hx].
        -- destruct (leb_total a a); assumption.
        -- eapply leb_trans; [exact Ham|]. eapply IH; [reflexivity | exact Hx].
      * injection Hs as <- _. destruct Hx as [<-|Hx].
        -- destruct (leb_total m' a) as [H|H]; [exact H | congruence].
        -- eapply IH; [reflexivity | exact Hx].
Qed.

End SortFacts.

Lemma keep_changes_incl {A : Type} (eqb : A -> A -> bool) (prev y : A) (l : list A) :
  In y (Np.keep_changes eqb prev l) -> In y l.
Proof.
  revert prev. induction l as [|a l IH]; simpl; intros prev H.
  - exact H.
  - destruct (eqb a prev); simpl in H.
    + right. eapply IH, H.
    + destruct H as [H|H]; [left; exact H | right; eapply IH, H].
Qed.

(** [np.unique] invents no value. *)
Lemma unique_incl {A : Type} (leb eqb : A -> A -> bool) (y : A) (l : list A) :
  In y (Np.unique leb eqb l) -> In y l.
Proof.
  unfold Np.unique. intros H. apply (sort_In leb).
  destruct (Np.sort leb l) as [|m t]; [exact H|].
  destruct H as [H|H]; [left; exact H | right; eapply keep_changes_incl, H].
Qed.

(** The first element of [np.unique(ar)] is the first element of the
    sorted array. *)
Lemma unique_head {A : Type} (leb eqb : A -> A -> bool) (l : list A) :
  hd_error (Np.unique leb eqb l) = hd_error (Np.sort leb l).
Proof.
  unfold Np.unique. destruct (Np.sort leb l); reflexivity.
Qed.

(* ================================================================== *)
(** ** The script: calibration group, master key, plate scale *)

Section GroupFacts.
Context {G : Type} (G_eqb G_leb : G -> G -> bool) (G_str : G -> string).

Lemma select_group_default (calib_column : list G) :
  calib_column <> [] ->
  exists g, select_group G_eqb G_leb None calib_column = inr g
            /\ hd_error (Np.unique G_leb G_eqb calib_column) = Some g
            /\ hd_error (Np.sort G_leb calib_column) = Some g.
Proof.
  intros Hne. unfold select_group.
  pose proof (unique_head G_leb G_eqb calib_column) as Hh.
  unfold Np.unique in *.
  destruct (Np.sort G_leb calib_column) as [|m t] eqn:Hs.
  - exfalso. eapply sort_nonempty; eassumption.
  - exists m. rewrite getitem_head. repeat split.
Qed.

(** C3: in reduction-file mode without [--group], the group selected is
    the first of the sorted unique values of the ['calib'] column, which
    for a non-empty column is its minimum: a value of the column that is
    below or equal to every value of the column. *)
Theorem default_group_is_minimum (calib_column : list G) :
  (forall a b, G_leb a b = true \/ G_leb b a = true) ->
  (forall a b c, G_leb a b = true -> G_leb b c = true -> G_leb a c = true) ->
  calib_column <> [] ->
  exists g,
    select_group G_eqb G_leb None calib_column = inr g
    /\ hd_error (Np.unique G_leb G_eqb calib_column) = Some g
    /\ In g calib_column
    /\ forall x, In x calib_column -> G_leb g x = true.
Proof.
  intros Htotal Htrans Hne.
  destruct (select_group_default calib_column Hne) as (g & Hsel & Hu & Hs).
  destruct (Np.sort G_leb calib_column) as [|m t] eqn:E; [discriminate|].
  injection Hs as ->.
  exists g. split; [exact Hsel|]. split; [exact Hu|]. split.
  - apply (sort_In G_leb). rewrite E. left; reflexivity.
  - intros x Hx. eapply sort_head_least; eassumption.
Qed.

(** C10: in reduction-file mode without [--group], for a non-empty
    ['calib'] column whose values compare equal to themselves, the check of
    lines 73-74 passes: the ['Not a valid calibration group'] branch is
    not taken. *)
Theorem default_group_always_valid (calib_column : list G) :
  (forall g, G_eqb g g = true) ->
  calib_column <> [] ->
  exists g,
    select_group G_eqb G_leb None calib_column = inr g
    /\ validate_group G_eqb G_leb G_str g calib_column = inr tt.
Proof.
  intros Hrefl Hne.
  destruct (select_group_default calib_column Hne) as (g & Hsel & Hu & _).
  exists g. split; [exact Hsel|].
  unfold validate_group, Np.contains.
  destruct (Np.unique G_leb G_eqb calib_column) as [|m t]; [discriminate|].
  injection Hu as ->. simpl. rewrite Hrefl. reflexivity.
Qed.

End GroupFacts.

(** C5: the per-detector master key is the base token, an underscore and
    the detector index in decimal, zero-padded to width 2; it is the key
    of every tracer call made for that detector; base ["A_1"] and
    detector 3 give ["A_1_03"]. *)
Theorem master_key_zero_padded :
  (forall base det, make_master_key base det = base ++ "_" ++ format_02d det)
  /\ (forall det, 0 <= det <= 9 ->
        forall base, make_master_key base det = base ++ "_0" ++ Py.str det)
  /\ make_master_key "A_1" 3 = "A_1_03".
Proof.
  split; [|split].
  - intros base det. unfold make_master_key. rewrite zfill_str_format. reflexivity.
  - intros det Hdet base. unfold make_master_key.
    assert (Hcases : det = 0 \/ det = 1 \/ det = 2 \/ det = 3 \/ det = 4 \/
                     det = 5 \/ det = 6 \/ det = 7 \/ det = 8 \/ det = 9) by lia.
    repeat (destruct Hcases as [-> | Hcases]; [reflexivity|]).
    subst det. reflexivity.
  - reflexivity.
Qed.

(* ================================================================== *)
(** ** The script: input resolution *)

Section ResolveFacts.
Context {W G Num Par Img Pix Edges Slits : Type}.
Context (G_eqb G_leb : G -> G -> bool) (G_str : G -> string) (G_int : G -> exn + Z).
Variable C : @Collab W G Num Par Img Pix Edges Slits.

(** C9: in raw-trace-file mode the [--group] option is not read: two
    command lines that differ only in it resolve the same inputs and make
    [main] perform the same calls, reach the same state and give the same
    result. *)
Theorem raw_mode_ignores_group (args : Args) (g1 g2 : option G) (s : State) :
  pypeit_file args = None ->
  resolve_inputs G_eqb G_leb G_str G_int C (with_group args g1) s = resolve_inputs G_eqb G_leb G_str G_int C (with_group args g2) s
  /\ main G_eqb G_leb G_str G_int C (with_group args g1) s = main G_eqb G_leb G_str G_int C (with_group args g2) s.
Proof.
  intros Hraw.
  unfold main, resolve_inputs, with_group. cbn [pypeit_file]. rewrite Hraw.
  split; reflexivity.
Qed.

(** C4: in reduction-file mode, when the resolved group is not found by
    [group in np.unique(rdx.fitstbl['calib'])], [main] raises the
    ['Not a valid calibration group'] [ValueError]; the only call made
    is the construction of the [PypeIt] object, so no trace image is built
    and no detector is processed. *)
Theorem invalid_group_fails_early
        (args : Args) (file : string) (s : State) (w' : W) (rdx : PypeItObj) (g : G) :
  let cwd := os_getcwd C (world s) in
  let file' := PosixPath.abspath cwd file in
  let redux' := PosixPath.abspath cwd (match redux_path args with
                                       | None => fst (PosixPath.split file')
                                       | Some p => p
                                       end) in
  pypeit_file args = Some file ->
  os_path_isfile C (world s) file = true ->
  PypeIt C file' redux' (world s) = (w', inr rdx) ->
  select_group G_eqb G_leb (group args) (calib (fitstbl rdx)) = inr g ->
  Np.contains G_eqb g (Np.unique G_leb G_eqb (calib (fitstbl rdx))) = false ->
  main G_eqb G_leb G_str G_int C args s
  = (mkState w' (log s ++ [(CPypeIt file' redux', None)]),
     inl (ValueError ("Not a valid calibration group: " ++ G_str g))).
Proof.
  intros cwd file' redux' Hmode Hfile Hrdx Hsel Hnot. subst cwd file' redux'.
  unfold main, resolve_inputs, resolve_pypeit_file. rewrite Hmode.
  unfold bind, isfile, abspath, call, lift, raise, validate_group.
  rewrite Hfile. cbv beta iota zeta delta [negb].
  rewrite Hrdx. cbv beta iota zeta. rewrite Hsel. cbv beta iota zeta.
  rewrite Hnot. reflexivity.
Qed.

(** C8 (as the code has it): in raw-trace-file mode the spectrograph
    identifier is resolved first.  If that succeeds and the trace file does
    not exist, [main] raises the missing-file error, and resolving the
    spectrograph is the only call made; if it fails, its error is the one
    [main] raises. *)
Theorem missing_trace_file_after_spectrograph
        (args : Args) (file : string) (s : State) (w' : W) :
  pypeit_file args = None ->
  trace_file args = Some file ->
  (forall spec,
      load_spectrograph C (spectrograph args) (world s) = (w', inr spec) ->
      os_path_isfile C w' file = false ->
      main G_eqb G_leb G_str G_int C args s
      = (mkState w' (log s ++ [(CLoadSpectrograph (spectrograph args), None)]),
         inl (FileNotFoundError ("File does not exist: " ++ file))))
  /\ (forall e,
      load_spectrograph C (spectrograph args) (world s) = (w', inl e) ->
      main G_eqb G_leb G_str G_int C args s
      = (mkState w' (log s ++ [(CLoadSpectrograph (spectrograph args), Some e)]),
         inl e)).
Proof.
  intros Hmode Htrace.
  unfold main, resolve_inputs, resolve_trace_file. rewrite Hmode, Htrace.
  unfold bind, isfile, call, raise.
  split.
  - intros spec Hload Hfile. rewrite Hload. cbv beta iota zeta delta [world].
    rewrite Hfile. reflexivity.
  - intros e Hload. rewrite Hload. reflexivity.
Qed.

End ResolveFacts.

(* ================================================================== *)
(** ** State and exceptions: facts *)

Section MonadFacts.
Context {S A B : Type}.

Lemma bind_ok (m : M S A) (k : A -> M S B) (s s' : S) (a : A) :
  m s = (s', inr a) -> bind m k s = k a s'.
Proof. intros H. unfold bind. rewrite H. reflexivity. Qed.

Lemma bind_raise (m : M S A) (k : A -> M S B) (s s' : S) (e : exn) :
  m s = (s', inl e) -> bind m k s = (s', inl e).
Proof. intros H. unfold bind. rewrite H. reflexivity. Qed.

End MonadFacts.

Lemma for_each_app {S A : Type} (l1 l2 : list A) (body : A -> M S unit) (s : S) :
  for_each (l1 ++ l2) body s
  = match for_each l1 body s with
    | (s', inl e) => (s', inl e)
    | (s', inr _) => for_each l2 body s'
    end.
Proof.
  revert s. induction l1 as [|x l1 IH]; intros s; simpl.
  - reflexivity.
  - unfold bind. destruct (body x s) as [s' [e|[]]]; [reflexivity|]. apply IH.
Qed.

(* ================================================================== *)
(** ** The script: the detector loop *)

Section LoopFacts.
Local Open Scope list_scope.
Context {W G Num Par Img Pix Edges Slits : Type}.
Variable C : @Collab W G Num Par Img Pix Edges Slits.


(** When the collaborators answer as [passes P] says, the loop runs to
    its end and leaves the state [passes P] gives. *)
Lemma passes_run (P : Z -> @State W Num -> @State W Num -> Prop)
      (body : Z -> M (@State W Num) unit) (l : list Z) :
  (forall x s s', P x s s' -> body x s = (s', inr tt)) ->
  forall s s', passes P l s s' -> for_each l body s = (s', inr tt).
Proof.
  intros Hbody. induction l as [|x l IH]; intros s s' Hp; simpl in *.
  - subst s'. reflexivity.
  - destruct Hp as (s1 & Hx & Hrest).
    rewrite (bind_ok _ _ _ _ _ (Hbody x s s1 Hx)). apply IH, Hrest.
Qed.

(** A loop that ran to its end went through every pass. *)
Lemma passes_of_run (P : Z -> @State W Num -> @State W Num -> Prop)
      (body : Z -> M (@State W Num) unit) (l : list Z) :
  (forall x s s', body x s = (s', inr tt) -> P x s s') ->
  forall s s', for_each l body s = (s', inr tt) -> passes P l s s'.
Proof.
  intros Hbody. induction l as [|x l IH]; intros s s' Hrun; simpl in *.
  - injection Hrun as <-. reflexivity.
  - unfold bind in Hrun. destruct (body x s) as [s1 [e|[]]] eqn:Hx; [discriminate|].
    exists s1. split; [apply Hbody, Hx | apply IH, Hrun].
Qed.

(** The steps of a pass in front of the tracer. *)
Lemma trace_detector_image (args : @Args G) (inp : Inputs) (md : string) (det : Z)
      (s s0 : @State W Num) (img : Img) (ps : Num) :
  image_ready C inp det s img ps s0 ->
  trace_detector C args inp md det s
  = (if use_new args
     then trace_new C inp md det (make_master_key (in_master_key_base inp) det) img
     else trace_legacy C inp md det (make_master_key (in_master_key_base inp) det)
                       img ps) s0.
Proof.
  intros (w1 & img0 & w2 & H1 & H2 & Hps & ->).
  unfold trace_detector, bind, call, lift. rewrite H1. cbn [world log outcome].
  rewrite H2. cbn [world log outcome]. rewrite Hps. rewrite <- app_assoc. reflexivity.
Qed.

(** On the new path, when the collaborators answer as [edges_saved] or
    [edges_dropped] says, the pass ends normally in the state given. *)
Lemma trace_detector_new_pass (args : @Args G) (inp : Inputs) (md : string) (det : Z)
      (s s0 s' : @State W Num) (img : Img) (ps : Num) :
  use_new args = true ->
  image_ready C inp det s img ps s0 ->
  edges_saved C inp md det img s0 s' \/ edges_dropped C inp md det img s0 s' ->
  trace_detector C args inp md det s = (s', inr tt).
Proof.
  intros Hnew Himg Hout. rewrite (trace_detector_image args inp md det s s0 img ps Himg).
  rewrite Hnew. unfold trace_new, try_except_pass, bind, print, call.
  destruct Hout as [(w1 & edges & w2 & w3 & E1 & E2 & E3 & ->) | Hdrop].
  - rewrite E1. cbn [world log outcome fst]. rewrite E2. cbn [world log outcome fst].
    rewrite E3. cbn [world log outcome fst]. rewrite <- !app_assoc. reflexivity.
  - unfold edges_dropped in Hdrop. cbv zeta in Hdrop.
    destruct Hdrop as [(w1 & e & E1 & ->)
                      | [(w1 & edges & w2 & e & E1 & E2 & ->)
                        | (w1 & edges & w2 & w3 & e & E1 & E2 & E3 & ->)]].
    + rewrite E1. reflexivity.
    + rewrite E1. cbn [world log outcome fst]. rewrite E2. cbn [world log outcome fst].
      rewrite <- !app_assoc. reflexivity.
    + rewrite E1. cbn [world log outcome fst]. rewrite E2. cbn [world log outcome fst].
      rewrite E3. cbn [world log outcome fst]. rewrite <- !app_assoc. reflexivity.
Qed.


(** On the new path an exception that leaves a pass was raised before the
    tracer was reached: by the construction or the build of the trace
    image, or by the computation of the plate scale. *)
Lemma trace_detector_new_raises (args : @Args G) (inp : Inputs) (md : string) (det : Z)
      (s s' : @State W Num) (e : exn) :
  use_new args = true ->
  trace_detector C args inp md det s = (s', inl e) ->
  (exists w', TraceImage C (in_spec inp) (in_files inp) det (in_proc_par inp) (world s)
              = (w', inl e))
  \/ (exists w1 img w',
         TraceImage C (in_spec inp) (in_files inp) det (in_proc_par inp) (world s)
         = (w1, inr img)
         /\ build_image C img w1 = (w', inl e))
  \/ get_plate_scale C (in_spec inp) (in_binning inp) det = inl e.
Proof.
  intros Hnew. open_detector. rewrite Hnew. repeat next_call.
  all: intros Hrun; try discriminate Hrun; injection Hrun as _ <-.
  all: try (left; eexists; reflexivity).
  all: try (right; left; do 3 eexists; split; [reflexivity | eassumption]).
  all: right; right; reflexivity.
Qed.

(** On the legacy path, when the collaborators answer as [slits_saved]
    says, the pass ends normally in the state given. *)
Lemma trace_detector_legacy_saved (args : @Args G) (inp : Inputs) (md : string)
      (det : Z) (s s0 s' : @State W Num) (img : Img) (ps : Num) :
  use_new args = false ->
  image_ready C inp det s img ps s0 ->
  slits_saved C inp md det img ps s0 s' ->
  trace_detector C args inp md det s = (s', inr tt).
Proof.
  intros Hnew Himg (w1 & t & w2 & t' & w3 & w4 & E1 & E2 & E3 & E4 & ->).
  rewrite (trace_detector_image args inp md det s s0 img ps Himg).
  rewrite Hnew. unfold trace_legacy, bind, print, call.
  rewrite E1. cbn [world log outcome]. rewrite E2. cbn [world log outcome].
  rewrite E3. cbn [world log outcome]. rewrite E4. cbn [world log outcome].
  rewrite <- !app_assoc. reflexivity.
Qed.

(** On the legacy path, when one of the tracer's calls raises, the
    exception leaves the pass, in the state reached by that call. *)
Lemma trace_detector_legacy_raised (args : @Args G) (inp : Inputs) (md : string)
      (det : Z) (s s0 s' : @State W Num) (img : Img) (ps : Num) (e : exn) :
  use_new args = false ->
  image_ready C inp det s img ps s0 ->
  slits_raised C inp md det img ps s0 e s' ->
  trace_detector C args inp md det s = (s', inl e).
Proof.
  intros Hnew Himg Hraised.
  rewrite (trace_detector_image args inp md det s s0 img ps Himg).
  rewrite Hnew. unfold trace_legacy, bind, print, call.
  unfold slits_raised in Hraised. cbv zeta in Hraised.
  destruct Hraised as [(w1 & E1 & ->)
                      | [(w1 & t & w2 & E1 & E2 & ->)
                        | [(w1 & t & w2 & t' & w3 & E1 & E2 & E3 & ->)
                          | (w1 & t & w2 & t' & w3 & w4 & E1 & E2 & E3 & E4 & ->)]]].
  - rewrite E1. reflexivity.
  - rewrite E1. cbn [world log outcome]. rewrite E2. cbn [world log outcome].
    rewrite <- !app_assoc. reflexivity.
  - rewrite E1. cbn [world log outcome]. rewrite E2. cbn [world log outcome].
    rewrite E3. cbn [world log outcome]. rewrite <- !app_assoc. reflexivity.
  - rewrite E1. cbn [world log outcome]. rewrite E2. cbn [world log outcome].
    rewrite E3. cbn [world log outcome]. rewrite E4. cbn [world log outcome].
    rewrite <- !app_assoc. reflexivity.
Qed.

(** On the legacy path a pass that ends normally has gone through every
    call, the last of them [save]. *)
Lemma trace_detector_legacy_inv (args : @Args G) (inp : Inputs) (md : string)
      (det : Z) (s s' : @State W Num) :
  use_new args = false ->
  trace_detector C args inp md det s = (s', inr tt) ->
  legacy_pass C inp md det s s'.
Proof.
  intros Hnew. unfold legacy_pass, image_ready, slits_saved. cbv zeta.
  open_detector. rewrite Hnew.
  destruct (TraceImage C (in_spec inp) (in_files inp) det (in_proc_par inp) (world s))
    as [w1 [e|img0]] eqn:H1; cbn [world log outcome]; [discriminate|].
  destruct (build_image C img0 w1) as [w2 [e|img]] eqn:H2; cbn [world log outcome];
    [discriminate|].
  destruct (get_plate_scale C (in_spec inp) (in_binning inp) det) as [e|ps] eqn:Hps;
    [discriminate|].
  destruct (TraceSlits C (in_spec inp) (in_trace_par inp) det
                       (make_master_key (in_master_key_base inp) det) md w2)
    as [w3 [e|t]] eqn:E1; cbn [world log outcome]; [discriminate|].
  destruct (TraceSlits_run C t (image C img) (in_binning inp) ps false w3)
    as [w4 [e|t']] eqn:E2; cbn [world log outcome]; [discriminate|].
  destruct (stdout_print C det w4) as [w5 [e|[]]] eqn:E3; cbn [world log outcome];
    [discriminate|].
  destruct (TraceSlits_save C t' img w5) as [w6 [e|[]]] eqn:E4; cbn [world log outcome];
    [discriminate|].
  intros Hrun. injection Hrun as <-.
  exists img, ps, (mkState w2 (log s ++ [(CTraceImage det (in_files inp), None);
                                        (CBuildImage det, None)])).
  split.
  - exists w1, img0, w2. repeat split; assumption.
  - exists w3, t, w4, t', w5, w6. cbn [world log].
    repeat split; try assumption. rewrite <- !app_assoc. reflexivity.
Qed.

End LoopFacts.

(* ================================================================== *)
(** ** The script: plate scale and the two tracing paths *)

Section RunFacts.
Local Open Scope list_scope.
Context {W G Num Par Img Pix Edges Slits : Type}.
Context (G_eqb G_leb : G -> G -> bool) (G_str : G -> string) (G_int : G -> exn + Z).
Variable C : @Collab W G Num Par Img Pix Edges Slits.

(** C6: for a detector [det] of the spectrograph, the plate scale is the
    second (spatial) component of the parsed binning times the platescale
    of that detector, and this is the value the tracer is run with: on the
    legacy path, once the image of [det] is ready, the pass ends as
    [TraceSlits.run] called with this plate scale makes it end, saved when
    the calls go through and raising when one of them raises.  (The new
    tracer takes no plate scale.) *)
Theorem plate_scale_uses_spatial_binning
        (args : @Args G) (inp : Inputs) (md : string) (det : Z)
        (spectral spatial : Z) (d : DetectorPar) :
  parse_binning C (in_binning inp) = inr (spectral, spatial) ->
  1 <= det ->
  nth_error (spec_detector (in_spec inp)) (Z.to_nat (det - 1)) = Some d ->
  let plate_scale := int_mul C spatial (platescale d) in
  get_plate_scale C (in_spec inp) (in_binning inp) det = inr plate_scale
  /\ forall (s s0 : State) (img : Img) (ps : Num),
      use_new args = false ->
      image_ready C inp det s img ps s0 ->
      ps = plate_scale
      /\ (forall s', slits_saved C inp md det img plate_scale s0 s' ->
                     trace_detector C args inp md det s = (s', inr tt))
      /\ (forall e s', slits_raised C inp md det img plate_scale s0 e s' ->
                       trace_detector C args inp md det s = (s', inl e)).
Proof.
  intros Hparse Hdet Hnth plate_scale.
  assert (Hps : get_plate_scale C (in_spec inp) (in_binning inp) det = inr plate_scale).
  { unfold get_plate_scale. rewrite Hparse.
    assert (Hlen : (Z.to_nat (det - 1) < List.length (spec_detector (in_spec inp)))%nat).
    { apply nth_error_Some. rewrite Hnth. discriminate. }
    rewrite getitem_nth by lia. rewrite Hnth. reflexivity. }
  split; [exact Hps|].
  intros s s0 img ps Hnew Hready.
  assert (Heq : ps = plate_scale).
  { destruct Hready as (w1 & img0 & w2 & _ & _ & Hps' & _).
    rewrite Hps in Hps'. injection Hps' as <-. reflexivity. }
  subst ps. split; [reflexivity|]. split.
  - intros s' Hsaved.
    exact (trace_detector_legacy_saved C args inp md det s s0 s' img plate_scale
             Hnew Hready Hsaved).
  - intros e s' Hraised.
    exact (trace_detector_legacy_raised C args inp md det s s0 s' img plate_scale e
             Hnew Hready Hraised).
Qed.


(** C2: on the legacy path nothing is caught.  When the detectors before
    [d] have gone through, each with its slits saved, the image of [d] is
    ready and one of the tracer's calls for [d] raises [e], then [e]
    leaves [main], in the state that call left: what was saved for the
    detectors before [d] is there, and nothing at all is called for the
    detectors after [d]. *)
Theorem legacy_path_aborts_on_error
        (args : @Args G) (s s1 s2 s0 s3 : State) (inp : Inputs)
        (ds1 ds2 : list Z) (d : Z) (img : Img) (ps : Num) (e : exn) :
  let md := PosixPath.join (in_redux_path inp) (master_dir args) in
  use_new args = false ->
  resolve_inputs G_eqb G_leb G_str G_int C args s = (s1, inr inp) ->
  detectors args (in_spec inp) = ds1 ++ d :: ds2 ->
  passes (legacy_pass C inp md) ds1 s1 s2 ->
  image_ready C inp d s2 img ps s0 ->
  slits_raised C inp md d img ps s0 e s3 ->
  main G_eqb G_leb G_str G_int C args s = (s3, inl e)
  /\ exit_status (snd (main G_eqb G_leb G_str G_int C args s)) <> 0.
Proof.
  intros md Hnew Hres Hds Hbefore Hready Hraised.
  assert (Hloop1 : for_each ds1 (trace_detector C args inp md) s1 = (s2, inr tt)).
  { apply (passes_run (legacy_pass C inp md)); [|exact Hbefore].
    intros det t t' (img' & ps' & t0 & Hr & Hs).
    exact (trace_detector_legacy_saved C args inp md det t t0 t' img' ps' Hnew Hr Hs). }
  assert (Hpass : trace_detector C args inp md d s2 = (s3, inl e)).
  { exact (trace_detector_legacy_raised C args inp md d s2 s0 s3 img ps e
             Hnew Hready Hraised). }
  assert (Hmain : main G_eqb G_leb G_str G_int C args s = (s3, inl e)).
  { unfold main. rewrite (bind_ok _ _ _ _ _ Hres).
    unfold trace_all. fold md. rewrite Hds. apply bind_raise.
    rewrite for_each_app, Hloop1. simpl for_each. apply bind_raise. exact Hpass. }
  rewrite Hmain. split; [reflexivity | simpl; discriminate].
Qed.

End RunFacts.

(* ================================================================== *)
(** ** The script: the output root *)

Section ReduxPathFacts.
Context {W G Num Par Img Pix Edges Slits : Type}.
Context (G_eqb G_leb : G -> G -> bool) (G_str : G -> string) (G_int : G -> exn + Z).
Variable C : @Collab W G Num Par Img Pix Edges Slits.

(** In reduction-file mode the output root is [--redux_path], else the
    directory that holds the reduction file. *)
Lemma redux_path_of_pypeit_file (args : Args) (file : string) (s s' : State)
      (inp : Inputs) :
  resolve_pypeit_file G_eqb G_leb G_str G_int C args file s = (s', inr inp) ->
  let cwd := os_getcwd C (world s) in
  in_redux_path inp
  = PosixPath.abspath cwd
      (match redux_path args with
       | None => fst (PosixPath.split (PosixPath.abspath cwd file))
       | Some p => p
       end).
Proof.
  unfold resolve_pypeit_file, bind, isfile, abspath, call, lift, raise, ret.
  intros H.
  repeat match type of H with
         | context [match ?x with _ => _ end] => destruct x eqn:?; try discriminate H
         end.
  all: injection H as _ <-; reflexivity.
Qed.

(** In raw-trace-file mode the output root is [--redux_path], else the
    directory that holds the trace file. *)
Lemma redux_path_of_trace_file (args : Args) (s s' : State) (inp : Inputs) :
  resolve_trace_file C args s = (s', inr inp) ->
  exists file,
    trace_file args = Some file
    /\ let cwd := os_getcwd C (world s') in
       in_redux_path inp
       = PosixPath.abspath cwd
           (match redux_path args with
            | None => fst (PosixPath.split (PosixPath.abspath cwd file))
            | Some p => p
            end).
Proof.
  unfold resolve_trace_file, bind, isfile, abspath, call, lift, raise, ret.
  intros H.
  destruct (load_spectrograph C (spectrograph args) (world s)) as [w1 [e|spec]];
    [discriminate H|].
  destruct (trace_file args) as [file|]; [|discriminate H].
  cbv beta iota zeta delta [world] in H.
  destruct (negb (os_path_isfile C w1 file)); [discriminate H|].
  injection H as <- <-. exists file. split; reflexivity.
Qed.

End ReduxPathFacts.

(** C7, at a trace file outside the working directory: with
    [-t /data/raw/trace.fits], no [--redux_path] and the process running
    in [/home/observer], the output root is [/data/raw], the directory of
    the trace file. *)
Theorem raw_mode_redux_path_is_trace_directory :
  let C := Demo.collab [] (fun _ => false) in
  let args := Demo.raw_args "/data/raw/trace.fits" true in
  redux_path args = None
  /\ os_getcwd C (world Demo.start) = "/home/observer"
  /\ exists s inp,
      resolve_inputs Z.eqb Z.leb Py.str (fun g => inr g) C args Demo.start = (s, inr inp)
      /\ in_redux_path inp = "/data/raw".
Proof.
  cbv zeta. split; [reflexivity|]. split; [reflexivity|].
  eexists; eexists. split; [vm_compute; reflexivity | reflexivity].
Qed.

(* ================================================================== *)
(** ** The properties at work in the small observatory *)

Local Open Scope list_scope.


(** Three detectors, the legacy tracer raising on the second, in [run]:
    the exception leaves [main]; the file of detector 1 is on disk, and
    the last call made is the [run] of detector 2. *)
Lemma legacy_path_aborts_on_error_witness :
  Demo.run [] Demo.second_fails (Demo.raw_args "/data/raw/trace.fits" false)
  = (mkState
       (Demo.disk ++ ["/data/raw/Masters/MasterTrace_A_1_01"%string])
       [(CLoadSpectrograph (Some "three_det"%string), None);
        (CTraceImage 1 ["/data/raw/trace.fits"%string], None);
        (CBuildImage 1, None);
        (CTraceSlits 1 "A_1_01" "/data/raw/Masters", None);
        (CTraceSlitsRun 1 "1,1" (2 # 10)%Q, None);
        (CPrint 1, None);
        (CTraceSlitsSave 1 "A_1_01" "/data/raw/Masters", None);
        (CTraceImage 2 ["/data/raw/trace.fits"%string], None);
        (CBuildImage 2, None);
        (CTraceSlits 2 "A_1_02" "/data/raw/Masters", None);
        (CTraceSlitsRun 2 "1,1" (1 # 4)%Q, Some (CollabError "slit tracing failed"))],
     inl (CollabError "slit tracing failed"))
  /\ exit_status
       (snd (Demo.run [] Demo.second_fails (Demo.raw_args "/data/raw/trace.fits" false)))
     <> 0.
Proof.
  pose (C := Demo.collab [] Demo.second_fails).
  pose (args := Demo.raw_args "/data/raw/trace.fits" false).
  pose (inp := mkInputs Demo.three_det "A_1"%string "1,1"%string
                        ["/data/raw/trace.fits"%string]
                        "/data/raw"%string "traceframe"%string "slits"%string).
  pose (s1 := mkState Demo.disk [(CLoadSpectrograph (Some "three_det"%string), None)]
              : @State Demo.World Q).
  pose (s2 := fst (trace_detector C args inp "/data/raw/Masters" 1 s1)).
  pose (s0 := mkState (world s2)
                      (log s2 ++ [(CTraceImage 2 ["/data/raw/trace.fits"%string], None);
                                  (CBuildImage 2, None)])).
  apply (legacy_path_aborts_on_error Z.eqb Z.leb Py.str (fun g => inr g)
           C args Demo.start s1 s2 s0 _ inp [1] [3] 2 2 (1 # 4)%Q
           (CollabError "slit tracing failed")).
  - reflexivity.
  - reflexivity.
  - reflexivity.
  - exists s2. split; [|reflexivity].
    exists 1, (2 # 10)%Q. eexists. split.
    + do 3 eexists. repeat split.
    + do 6 eexists. repeat split.
  - do 3 eexists. repeat split.
  - right. left. do 3 eexists. repeat split.
Defined.

(** Group values 3, 1, 2, 1: the default group is 1. *)
Lemma default_group_is_minimum_witness :
  exists g,
    select_group Z.eqb Z.leb None [3; 1; 2; 1] = inr g
    /\ hd_error (Np.unique Z.leb Z.eqb [3; 1; 2; 1]) = Some g
    /\ In g [3; 1; 2; 1]
    /\ forall x, In x [3; 1; 2; 1] -> (g <=? x) = true.
Proof.
  apply (default_group_is_minimum Z.eqb Z.leb [3; 1; 2; 1]).
  - intros a b. rewrite !Z.leb_le. lia.
  - intros a b c. rewrite !Z.leb_le. lia.
  - discriminate.
Defined.

Lemma default_group_always_valid_witness :
  exists g,
    select_group Z.eqb Z.leb None [3; 1; 2; 1] = inr g
    /\ validate_group Z.eqb Z.leb Py.str g [3; 1; 2; 1] = inr tt.
Proof.
  apply (default_group_always_valid Z.eqb Z.leb Py.str [3; 1; 2; 1]).
  - intros g. apply Z.eqb_refl.
  - discriminate.
Defined.

(** [-g 7] on a table whose groups are 1, 2 and 3. *)
Lemma invalid_group_fails_early_witness :
  Demo.run [2; 1; 3; 1] Demo.second_fails (Demo.file_args "/redux/run.pypeit" (Some 7) true)
  = (mkState Demo.disk [(CPypeIt "/redux/run.pypeit" "/redux", None)],
     inl (ValueError "Not a valid calibration group: 7")).
Proof.
  apply (invalid_group_fails_early Z.eqb Z.leb Py.str (fun g => inr g)
           (Demo.collab [2; 1; 3; 1] Demo.second_fails)
           (Demo.file_args "/redux/run.pypeit" (Some 7) true)
           "/redux/run.pypeit" Demo.start Demo.disk
           (mkPypeItObj Demo.three_det (Demo.table [2; 1; 3; 1]) Demo.pars) 7).
  - reflexivity.
  - reflexivity.
  - reflexivity.
  - reflexivity.
  - reflexivity.
Defined.

Lemma master_key_zero_padded_witness :
  make_master_key "A_1" 7 = ("A_1" ++ "_0" ++ Py.str 7)%string.
Proof.
  apply (proj1 (proj2 master_key_zero_padded) 7). lia.
Defined.

(** Binning ["2,1"] and platescale 0.2: the plate scale is 1 x 0.2, and
    the legacy pass of detector 1 is the one [run] makes with it. *)
Lemma plate_scale_uses_spatial_binning_witness :
  let C := Demo.collab [] Demo.second_fails in
  let args := Demo.raw_args "/data/raw/trace.fits" false in
  let inp := mkInputs Demo.three_det "A_1"%string "2,1"%string
                      ["/data/raw/trace.fits"%string]
                      "/data/raw"%string "traceframe"%string "slits"%string in
  let md := "/data/raw/Masters"%string in
  get_plate_scale C Demo.three_det "2,1"%string 1 = inr (2 # 10)%Q
  /\ forall (s s0 : State) (img : Z) (ps : Q),
      use_new args = false ->
      image_ready C inp 1 s img ps s0 ->
      ps = (2 # 10)%Q
      /\ (forall s', slits_saved C inp md 1 img (2 # 10)%Q s0 s' ->
                     trace_detector C args inp md 1 s = (s', inr tt))
      /\ (forall e s', slits_raised C inp md 1 img (2 # 10)%Q s0 e s' ->
                       trace_detector C args inp md 1 s = (s', inl e)).
Proof.
  cbv zeta.
  apply (plate_scale_uses_spatial_binning (Demo.collab [] Demo.second_fails)
           (Demo.raw_args "/data/raw/trace.fits" false)
           (mkInputs Demo.three_det "A_1"%string "2,1"%string
                     ["/data/raw/trace.fits"%string]
                     "/data/raw"%string "traceframe"%string "slits"%string)
           "/data/raw/Masters"%string 1 2 1 (mkDetectorPar (2 # 10)%Q)).
  - reflexivity.
  - lia.
  - reflexivity.
Defined.

(** A trace file that does not exist, with a spectrograph that does. *)
Lemma missing_trace_file_after_spectrograph_witness :
  Demo.run [] Demo.second_fails (Demo.raw_args "/data/raw/nope.fits" true)
  = (mkState Demo.disk [(CLoadSpectrograph (Some "three_det"), None)],
     inl (FileNotFoundError "File does not exist: /data/raw/nope.fits")).
Proof.
  apply (proj1 (missing_trace_file_after_spectrograph Z.eqb Z.leb Py.str (fun g => inr g)
                  (Demo.collab [] Demo.second_fails) (Demo.raw_args "/data/raw/nope.fits" true)
                  "/data/raw/nope.fits" Demo.start Demo.disk eq_refl eq_refl)
               Demo.three_det).
  - reflexivity.
  - reflexivity.
Defined.

(** C8 as stated fails: a trace file that does not exist and a
    spectrograph name that is not recognised.  The spectrograph is looked
    up first, and its error, not the missing-file error, leaves [main]. *)
Lemma missing_trace_file_counterexample :
  let args : @Args Z :=
    mkArgs None (Some "/data/raw/nope.fits") None None (Some "no_such") None None
           "Masters" false false true in
  pypeit_file args = None
  /\ Demo.on_disk Demo.disk "/data/raw/nope.fits" = false
  /\ Demo.run [] Demo.second_fails args
     = (mkState Demo.disk
                [(CLoadSpectrograph (Some "no_such"),
                  Some (CollabError "unknown spectrograph"))],
        inl (CollabError "unknown spectrograph"))
  /\ ~ (exists msg, snd (Demo.run [] Demo.second_fails args) = inl (FileNotFoundError msg)).
Proof.
  cbv zeta. repeat split; try reflexivity.
  intros (msg & H). vm_compute in H. discriminate H.
Qed.

Lemma raw_mode_ignores_group_witness :
  Demo.run [] Demo.second_fails (with_group (Demo.raw_args "/data/raw/trace.fits" true) (Some 7))
  = Demo.run [] Demo.second_fails (with_group (Demo.raw_args "/data/raw/trace.fits" true) None).
Proof.
  apply (proj2 (raw_mode_ignores_group Z.eqb Z.leb Py.str (fun g => inr g)
                  (Demo.collab [] Demo.second_fails) (Demo.raw_args "/data/raw/trace.fits" true)
                  (Some 7) None Demo.start eq_refl)).
Defined.

(* ================================================================== *)
(** ** Worked examples *)

Local Open Scope string_scope.

Example split_ex1 : PosixPath.split "/data/raw/trace.fits" = ("/data/raw", "trace.fits").
Proof. reflexivity. Qed.
Example split_ex2 : PosixPath.split "trace.fits" = ("", "trace.fits").
Proof. reflexivity. Qed.
Example split_ex3 : PosixPath.split "/trace.fits" = ("/", "trace.fits").
Proof. reflexivity. Qed.
Example abspath_ex1 : PosixPath.abspath "/home/user" "a/../b/./c.fits" = "/home/user/b/c.fits".
Proof. reflexivity. Qed.
Example abspath_ex2 : PosixPath.abspath "/home/user" "" = "/home/user".
Proof. reflexivity. Qed.
Example str_ex : (Py.str 0, Py.str 12, Py.str (-3)) = ("0", "12", "-3").
Proof. reflexivity. Qed.
Example zfill_ex : (Py.zfill 2 "3", Py.zfill 4 "-3", Py.zfill 2 "123") = ("03", "-003", "123").
Proof. reflexivity. Qed.
Example pysplit_ex : Py.split "_" "A_1_01" = ["A"; "1"; "01"].
Proof. reflexivity. Qed.

Example unique_ex : Np.unique Z.leb Z.eqb [3; 1; 2; 1; 3]%list = [1; 2; 3]%list.
Proof. reflexivity. Qed.

Example default_group_ex : select_group Z.eqb Z.leb None [2; 3; 1]%list = inr 1.
Proof. reflexivity. Qed.

Example spec_parse_binning_ex : spec_parse_binning "2,1" = inr (2, 1).
Proof. reflexivity. Qed.

(** With a bare file name the trace file lies in the working directory,
    and only then is the default output root the working directory. *)
Example redux_path_bare_name :
  PosixPath.abspath "/home/observer"
    (fst (PosixPath.split (PosixPath.abspath "/home/observer" "trace.fits")))
  = "/home/observer".
Proof. reflexivity. Qed.

(** Reduction-file mode, new tracer raising on detector 2: the files on
    disk at the end are those of detectors 1 and 3. *)
Example new_path_disk :
  world (fst (Demo.run [2; 1; 3; 1]%list Demo.second_fails
                       (Demo.file_args "/redux/run.pypeit" None true)))
  = ["/data/raw/trace.fits"; "/redux/run.pypeit";
     "/redux/Masters/MasterEdges_A_1_01"; "/redux/Masters/MasterEdges_A_1_03"]%list.
Proof. reflexivity. Qed.

(** Raw-trace-file mode, legacy tracer raising on detector 2: only the
    file of detector 1 is on disk at the end. *)
Example legacy_path_disk :
  world (fst (Demo.run []%list Demo.second_fails
                       (Demo.raw_args "/data/raw/trace.fits" false)))
  = ["/data/raw/trace.fits"; "/redux/run.pypeit";
     "/data/raw/Masters/MasterTrace_A_1_01"]%list.
Proof. reflexivity. Qed.

(** The calls of the two runs above that follow the resolution of the
    inputs. *)
Example new_path_calls :
  log (fst (Demo.run []%list Demo.second_fails
                     (Demo.raw_args "/data/raw/trace.fits" true)))
  = [(CLoadSpectrograph (Some "three_det"), None);
     (CTraceImage 1 ["/data/raw/trace.fits"], None);
     (CBuildImage 1, None);
     (CEdgeTraceSet 1 "A_1_01" "/data/raw/Masters", None);
     (CPrint 1, None);
     (CEdgeSave 1 "A_1_01" "/data/raw/Masters", None);
     (CTraceImage 2 ["/data/raw/trace.fits"], None);
     (CBuildImage 2, None);
     (CEdgeTraceSet 2 "A_1_02" "/data/raw/Masters",
      Some (CollabError "edge tracing failed"));
     (CTraceImage 3 ["/data/raw/trace.fits"], None);
     (CBuildImage 3, None);
     (CEdgeTraceSet 3 "A_1_03" "/data/raw/Masters", None);
     (CPrint 3, None);
     (CEdgeSave 3 "A_1_03" "/data/raw/Masters", None)]%list.
Proof. reflexivity. Qed.

Example legacy_path_calls :
  log (fst (Demo.run []%list Demo.second_fails
                     (Demo.raw_args "/data/raw/trace.fits" false)))
  = [(CLoadSpectrograph (Some "three_det"), None);
     (CTraceImage 1 ["/data/raw/trace.fits"], None);
     (CBuildImage 1, None);
     (CTraceSlits 1 "A_1_01" "/data/raw/Masters", None);
     (CTraceSlitsRun 1 "1,1" (2 # 10)%Q, None);
     (CPrint 1, None);
     (CTraceSlitsSave 1 "A_1_01" "/data/raw/Masters", None);
     (CTraceImage 2 ["/data/raw/trace.fits"], None);
     (CBuildImage 2, None);
     (CTraceSlits 2 "A_1_02" "/data/raw/Masters", None);
     (CTraceSlitsRun 2 "1,1" (1 # 4)%Q,
      Some (CollabError "slit tracing failed"))]%list.
Proof. reflexivity. Qed.

(* ================================================================== *)
(** ** Master keys: further facts *)

Local Open Scope Z_scope.

Lemma string_app_inv_head (a x y : string) : a ++ x = a ++ y -> x = y.
Proof.
  induction a as [|c a IH]; simpl; intros H.
  - exact H.
  - injection H as H. apply IH, H.
Qed.


Lemma to_int_proper (n : Z) :
  Z.to_int n <> Decimal.Pos Decimal.Nil /\ Z.to_int n <> Decimal.Neg Decimal.Nil.
Proof.
  destruct n as [|p|p]; simpl; split; try discriminate.
  - intros H. injection H as H. exact (DecimalPos.Unsigned.to_uint_nonnil p H).
  - intros H. injection H as H. exact (DecimalPos.Unsigned.to_uint_nonnil p H).
Qed.

(** Reading [str(n)] back gives [n]. *)
Lemma str_parse (n : Z) :
  option_map Z.of_int (NilZero.int_of_string (Py.str n)) = Some n.
Proof.
  unfold Py.str. destruct (to_int_proper n) as [Hp Hn].
  rewrite NilZero.isi by assumption. simpl. rewrite DecimalZ.of_to. reflexivity.
Qed.

(** A zero in front of an unsigned numeral does not change what it reads
    as. *)
Lemma parse_leading_zero (c : ascii) (r : string) :
  Ascii.eqb c "-" = false ->
  option_map Z.of_int (NilZero.int_of_string (String "0" (String c r)))
  = option_map Z.of_int (NilZero.int_of_string (String c r)).
Proof.
  intros Hc. unfold NilZero.int_of_string. rewrite Hc.
  change (Ascii.eqb "0" "-") with false. cbv iota.
  unfold NilZero.uint_of_string.
  change (NilEmpty.uint_of_string (String "0" (String c r)))
    with (option_map Decimal.D0 (NilEmpty.uint_of_string (String c r))).
  destruct (NilEmpty.uint_of_string (String c r)) as [d|]; reflexivity.
Qed.

(** Reading [str(det).zfill(2)] back gives [det]: the padding loses
    nothing. *)
Lemma zfill_str_parse (det : Z) :
  option_map Z.of_int (NilZero.int_of_string (Py.zfill 2 (Py.str det))) = Some det.
Proof.
  pose proof (str_parse det) as Hparse.
  rewrite str_sign_digits in *. unfold digits in *.
  destruct (string_of_uint_nonempty (N.to_uint (Z.abs_N det))) as (c & r & E & Hp & Hm).
  rewrite E in *.
  destruct (det <? 0).
  - exact Hparse.
  - destruct r as [|c' r'].
    + change (Py.zfill 2 (String c "")) with
        (if (Ascii.eqb c "+" || Ascii.eqb c "-")%bool
         then String c (Py.zeros 1 ++ "") else Py.zeros 1 ++ String c "").
      rewrite Hp, Hm. cbv beta iota delta [orb].
      change (Py.zeros 1 ++ String c "") with (String "0" (String c "")).
      rewrite parse_leading_zero by exact Hm. exact Hparse.
    + exact Hparse.
Qed.

(** X1: different detectors get different master keys. *)
Theorem master_key_injective (base : string) (det1 det2 : Z) :
  det1 <> det2 -> make_master_key base det1 <> make_master_key base det2.
Proof.
  intros Hne Heq. apply Hne. unfold make_master_key in Heq.
  apply string_app_inv_head in Heq. apply string_app_inv_head in Heq.
  pose proof (zfill_str_parse det1) as H1. pose proof (zfill_str_parse det2) as H2.
  rewrite Heq in H1. rewrite H1 in H2. injection H2 as H2. exact H2.
Qed.

Lemma master_key_injective_witness :
  make_master_key "A_1" 1 <> make_master_key "A_1" 2.
Proof.
  apply (master_key_injective "A_1" 1 2). lia.
Defined.






(* ================================================================== *)
(** ** Calibration group: which groups are accepted *)

Section GroupMembership.
Context {G : Type} (G_eqb G_leb : G -> G -> bool) (G_str : G -> string).
Hypothesis G_eqb_eq : forall a b, G_eqb a b = true <-> a = b.

Lemma keep_changes_keeps (prev y : G) (l : list G) :
  In y l -> y = prev \/ In y (Np.keep_changes G_eqb prev l).
Proof.
  revert prev. induction l as [|x t IH]; intros prev Hin; [destruct Hin|].
  simpl. destruct Hin as [<-|Hin].
  - destruct (G_eqb x prev) eqn:E.
    + left. apply G_eqb_eq, E.
    + right. left. reflexivity.
  - destruct (IH x Hin) as [->|Hk].
    + destruct (G_eqb x prev) eqn:E.
      * left. apply G_eqb_eq, E.
      * right. left. reflexivity.
    + destruct (G_eqb x prev); right; [exact Hk | right; exact Hk].
Qed.

(** [np.unique] loses no value. *)
Lemma unique_complete (y : G) (l : list G) :
  In y l -> In y (Np.unique G_leb G_eqb l).
Proof.
  intros Hin. apply (sort_In G_leb) in Hin. unfold Np.unique.
  destruct (Np.sort G_leb l) as [|m t]; [exact Hin|].
  destruct Hin as [<-|Hin]; [left; reflexivity|].
  destruct (keep_changes_keeps m y t Hin) as [->|Hk]; [left | right]; auto.
Qed.

(** X3: the check of lines 73-74 lets a group through exactly when it
    occurs in the ['calib'] column, and raises the [ValueError] naming the
    group otherwise. *)
Theorem validate_group_iff (g : G) (calib_column : list G) :
  (validate_group G_eqb G_leb G_str g calib_column = inr tt <-> In g calib_column)
  /\ (~ In g calib_column ->
      validate_group G_eqb G_leb G_str g calib_column
      = inl (ValueError ("Not a valid calibration group: " ++ G_str g))).
Proof.
  unfold validate_group, Np.contains.
  destruct (existsb (G_eqb g) (Np.unique G_leb G_eqb calib_column)) eqn:E; simpl.
  - apply existsb_exists in E. destruct E as (x & Hx & Hgx).
    apply G_eqb_eq in Hgx. subst x. apply unique_incl in Hx.
    split; [split; auto | contradiction].
  - split; [|reflexivity]. split; [discriminate|].
    intros Hin. apply unique_complete in Hin.
    assert (Ht : existsb (G_eqb g) (Np.unique G_leb G_eqb calib_column) = true).
    { apply existsb_exists. exists g. split; [exact Hin | apply G_eqb_eq; reflexivity]. }
    rewrite Ht in E. discriminate E.
Qed.

End GroupMembership.

Lemma validate_group_iff_witness :
  (validate_group Z.eqb Z.leb Py.str 2 [2; 1; 3; 1]%list = inr tt
   <-> In 2 [2; 1; 3; 1]%list)
  /\ (~ In 2 [2; 1; 3; 1]%list ->
      validate_group Z.eqb Z.leb Py.str 2 [2; 1; 3; 1]%list
      = inl (ValueError ("Not a valid calibration group: " ++ Py.str 2))).
Proof.
  apply (validate_group_iff Z.eqb Z.leb Py.str Z.eqb_eq 2 [2; 1; 3; 1]%list).
Defined.

(* ================================================================== *)
(** ** Detectors and plate scale: edge cases *)

Lemma getitem_out_of_range {A : Type} (l : list A) (i : Z) :
  Z.of_nat (List.length l) <= i \/ i < - Z.of_nat (List.length l) ->
  Py.getitem l i = inl IndexError.
Proof.
  intros H. unfold Py.getitem. cbv zeta.
  destruct (Z.ltb_spec i 0) as [Hi|Hi].
  - destruct (Z.ltb_spec (i + Z.of_nat (List.length l)) 0); [reflexivity | lia].
  - destruct (Z.ltb_spec i 0); [lia|].
    destruct (Z.leb_spec (Z.of_nat (List.length l)) i); [reflexivity | lia].
Qed.

Section DetectorFacts.
Local Open Scope list_scope.
Context {W G Num Par Img Pix Edges Slits : Type}.
Variable C : @Collab W G Num Par Img Pix Edges Slits.

(** X4: without [--detector] the loop runs over 1, 2, ..., [ndet] in this
    order (over nothing when [ndet] is not positive); with [--detector d]
    over [d] alone, whatever [ndet] is. *)
Theorem detectors_range (args : @Args G) (spec : @Spectrograph Num Par) :
  (detector args = None ->
   List.length (detectors args spec) = Z.to_nat (ndet spec)
   /\ (forall i, (i < Z.to_nat (ndet spec))%nat ->
                 nth_error (detectors args spec) i = Some (Z.of_nat i + 1))
   /\ (forall d, In d (detectors args spec) <-> 1 <= d <= ndet spec))
  /\ (forall d, detector args = Some d -> detectors args spec = [d]).
Proof.
  unfold detectors, Np.arange. split.
  - intros ->. split; [|split].
    + rewrite !length_map, length_seq. reflexivity.
    + intros i Hi. rewrite !nth_error_map.
      rewrite nth_error_seq. destruct (Nat.ltb_spec i (Z.to_nat (ndet spec))); [|lia].
      reflexivity.
    + intros d. rewrite in_map_iff. split.
      * intros (x & <- & Hx). apply in_map_iff in Hx. destruct Hx as (k & <- & Hk).
        apply in_seq in Hk. lia.
      * intros Hd. exists (d - 1). split; [lia|].
        apply in_map_iff. exists (Z.to_nat (d - 1)). split; [lia|].
        apply in_seq. lia.
  - intros d ->. reflexivity.
Qed.

(** X5: a detector number from [1 - n] to 0, with [n] detectors, is not
    rejected: [spec.detector[det-1]] counts from the end, so that
    [--detector 0] takes the plate scale of the last detector. *)
Theorem plate_scale_wraps_around
        (spec : @Spectrograph Num Par) (b : string) (det spectral spatial : Z)
        (d : DetectorPar) :
  let n := Z.of_nat (List.length (spec_detector spec)) in
  parse_binning C b = inr (spectral, spatial) ->
  1 - n <= det <= 0 ->
  nth_error (spec_detector spec) (Z.to_nat (n + det - 1)) = Some d ->
  get_plate_scale C spec b det = inr (int_mul C spatial (platescale d)).
Proof.
  intros n Hparse Hdet Hnth. unfold get_plate_scale, Py.getitem. rewrite Hparse.
  fold n.
  destruct (det - 1 <? 0) eqn:E1; [|apply Z.ltb_ge in E1; lia].
  destruct (det - 1 + n <? 0) eqn:E2; [apply Z.ltb_lt in E2; lia|].
  destruct (n <=? det - 1 + n) eqn:E3; [apply Z.leb_le in E3; lia|].
  simpl orb. cbv iota.
  replace (det - 1 + n) with (n + det - 1) by lia. rewrite Hnth. reflexivity.
Qed.

(** X6: a detector number outside [1 - n .. n] is found out only when the
    plate scale is computed: the trace image has been constructed and
    built by then, and [IndexError] leaves the pass on either path. *)
Theorem detector_out_of_range
        (args : @Args G) (inp : Inputs) (md : string) (det spectral spatial : Z)
        (s : @State W Num) (w1 w2 : W) (img img' : Img) :
  let n := Z.of_nat (List.length (spec_detector (in_spec inp))) in
  parse_binning C (in_binning inp) = inr (spectral, spatial) ->
  n < det \/ det < 1 - n ->
  TraceImage C (in_spec inp) (in_files inp) det (in_proc_par inp) (world s)
  = (w1, inr img) ->
  build_image C img w1 = (w2, inr img') ->
  trace_detector C args inp md det s
  = (mkState w2 (log s ++ [(CTraceImage det (in_files inp), None);
                           (CBuildImage det, None)]),
     inl IndexError).
Proof.
  intros n Hparse Hdet Himg Hbuild.
  assert (Hps : get_plate_scale C (in_spec inp) (in_binning inp) det = inl IndexError).
  { unfold get_plate_scale. rewrite Hparse.
    rewrite getitem_out_of_range by (fold n; lia). reflexivity. }
  unfold trace_detector, bind, call, lift.
  rewrite Himg. cbv beta iota zeta delta [world log outcome].
  rewrite Hbuild. cbv beta iota zeta delta [world log outcome].
  rewrite Hps. rewrite <- app_assoc. reflexivity.
Qed.

End DetectorFacts.

(* ================================================================== *)
(** ** Paths: the output root is absolute *)

Lemma prefix_slash (p : string) :
  String.prefix "/" p = true -> exists r, p = String "/" r.
Proof.
  destruct p as [|c r]; [discriminate|]. intros H.
  change (String.prefix "/" (String c r))
    with (if ascii_dec "/"%char c then String.prefix "" r else false) in H.
  destruct (ascii_dec "/"%char c) as [E|]; [|discriminate H].
  exists r. rewrite <- E. reflexivity.
Qed.

Lemma prefix_slash_cons (r : string) : String.prefix "/" (String "/" r) = true.
Proof.
  change (String.prefix "/" (String "/" r))
    with (if ascii_dec "/"%char "/"%char then String.prefix EmptyString r else false).
  destruct (ascii_dec "/"%char "/"%char) as [_|Hne]; [|congruence].
  destruct r; reflexivity.
Qed.

Lemma normpath_isabs (p : string) :
  PosixPath.isabs p = true -> PosixPath.isabs (PosixPath.normpath p) = true.
Proof.
  unfold PosixPath.isabs. intros H. destruct (prefix_slash p H) as (r & ->).
  unfold PosixPath.normpath. rewrite H.
  destruct (String.prefix "//" (String "/" r) && negb (String.prefix "///" (String "/" r)));
    cbn [String.eqb String.append Ascii.eqb Bool.eqb andb]; apply prefix_slash_cons.
Qed.

Lemma join_isabs (a b : string) :
  PosixPath.isabs a = true -> PosixPath.isabs (PosixPath.join a b) = true.
Proof.
  unfold PosixPath.isabs, PosixPath.join. intros H.
  destruct (String.prefix "/" b) eqn:Hb; [exact Hb|].
  destruct (prefix_slash a H) as (r & ->).
  destruct (String.eqb (String "/" r) EmptyString
            || Py.endswith_char PosixPath.sep (String "/" r));
    cbn [String.append]; apply prefix_slash_cons.
Qed.

(** [os.path.abspath] gives an absolute path when the working directory
    is one. *)
Lemma abspath_isabs (cwd p : string) :
  PosixPath.isabs cwd = true -> PosixPath.isabs (PosixPath.abspath cwd p) = true.
Proof.
  intros H. unfold PosixPath.abspath. apply normpath_isabs.
  destruct (PosixPath.isabs p) eqn:Hp; [exact Hp | apply join_isabs, H].
Qed.

(* ================================================================== *)
(** ** [main]: errors before the loop, and what the loop may call *)

Section MainFacts.
Local Open Scope list_scope.
Context {W G Num Par Img Pix Edges Slits : Type}.
Context (G_eqb G_leb : G -> G -> bool) (G_str : G -> string) (G_int : G -> exn + Z).
Variable C : @Collab W G Num Par Img Pix Edges Slits.

(** X7: in either input mode, when the inputs are resolved and the
    working directory is an absolute path, the output root and the master
    directory handed to the tracers are absolute paths. *)
Theorem output_paths_absolute (args : Args) (s s' : State) (inp : Inputs) :
  (forall w, PosixPath.isabs (os_getcwd C w) = true) ->
  resolve_inputs G_eqb G_leb G_str G_int C args s = (s', inr inp) ->
  PosixPath.isabs (in_redux_path inp) = true
  /\ PosixPath.isabs (PosixPath.join (in_redux_path inp) (master_dir args)) = true.
Proof.
  intros Hcwd Hres.
  assert (Habs : PosixPath.isabs (in_redux_path inp) = true).
  { unfold resolve_inputs in Hres. destruct (pypeit_file args) as [file|].
    - rewrite (redux_path_of_pypeit_file _ _ _ _ _ _ _ _ _ _ Hres).
      apply abspath_isabs, Hcwd.
    - destruct (redux_path_of_trace_file _ _ _ _ _ Hres) as (file & _ & ->).
      apply abspath_isabs, Hcwd. }
  split; [exact Habs | apply join_isabs, Habs].
Qed.

(** X8: in reduction-file mode a reduction file that does not exist makes
    [main] raise the missing-file error at once: no collaborator is called
    and the state is left as it was. *)
Theorem missing_pypeit_file (args : Args) (file : string) (s : State) :
  pypeit_file args = Some file ->
  os_path_isfile C (world s) file = false ->
  main G_eqb G_leb G_str G_int C args s
  = (s, inl (FileNotFoundError ("File does not exist: " ++ file))).
Proof.
  intros Hmode Hfile.
  unfold main, resolve_inputs, resolve_pypeit_file. rewrite Hmode.
  unfold bind, isfile, raise. rewrite Hfile. reflexivity.
Qed.

(** X9: in reduction-file mode without [--group], a table whose ['calib']
    column is empty makes [main] raise [IndexError] (from
    [np.unique(...)[0]]), not the validation error; only the [PypeIt]
    object has been constructed. *)
Theorem empty_calib_column
        (args : Args) (file : string) (s : State) (w' : W) (rdx : PypeItObj) :
  let cwd := os_getcwd C (world s) in
  let file' := PosixPath.abspath cwd file in
  let redux' := PosixPath.abspath cwd (match redux_path args with
                                       | None => fst (PosixPath.split file')
                                       | Some p => p
                                       end) in
  pypeit_file args = Some file ->
  os_path_isfile C (world s) file = true ->
  PypeIt C file' redux' (world s) = (w', inr rdx) ->
  group args = None ->
  calib (fitstbl rdx) = [] ->
  main G_eqb G_leb G_str G_int C args s
  = (mkState w' (log s ++ [(CPypeIt file' redux', None)]), inl IndexError).
Proof.
  intros cwd file' redux' Hmode Hfile Hrdx Hgroup Hcol. subst cwd file' redux'.
  unfold main, resolve_inputs, resolve_pypeit_file. rewrite Hmode.
  unfold bind, isfile, abspath, call, lift, raise.
  rewrite Hfile. cbv beta iota zeta delta [negb].
  rewrite Hrdx. cbv beta iota zeta. rewrite Hgroup, Hcol. reflexivity.
Qed.

(** X10: in reduction-file mode, a valid group for which the table has no
    trace frame makes [main] raise [IndexError] (from [tbl_rows[0]]); only
    the [PypeIt] object has been constructed. *)
Theorem no_trace_frames
        (args : Args) (file : string) (s : State) (w' : W) (rdx : PypeItObj)
        (g : G) (calib_ID : Z) :
  let cwd := os_getcwd C (world s) in
  let file' := PosixPath.abspath cwd file in
  let redux' := PosixPath.abspath cwd (match redux_path args with
                                       | None => fst (PosixPath.split file')
                                       | Some p => p
                                       end) in
  pypeit_file args = Some file ->
  os_path_isfile C (world s) file = true ->
  PypeIt C file' redux' (world s) = (w', inr rdx) ->
  select_group G_eqb G_leb (group args) (calib (fitstbl rdx)) = inr g ->
  validate_group G_eqb G_leb G_str g (calib (fitstbl rdx)) = inr tt ->
  G_int g = inr calib_ID ->
  find_frames (fitstbl rdx) "trace" calib_ID = inr [] ->
  main G_eqb G_leb G_str G_int C args s
  = (mkState w' (log s ++ [(CPypeIt file' redux', None)]), inl IndexError).
Proof.
  intros cwd file' redux' Hmode Hfile Hrdx Hsel Hval Hint Hrows.
  subst cwd file' redux'.
  unfold main, resolve_inputs, resolve_pypeit_file. rewrite Hmode.
  unfold bind, isfile, abspath, call, lift, raise.
  rewrite Hfile. cbv beta iota zeta delta [negb].
  rewrite Hrdx. cbv beta iota zeta. rewrite Hsel. cbv beta iota zeta.
  rewrite Hval. cbv beta iota zeta. rewrite Hint. cbv beta iota zeta.
  rewrite Hrows. reflexivity.
Qed.

(** Neither [--overwrite] nor [--debug] is read: whatever they are,
    [main] makes the same calls and gives the same result. *)
Theorem overwrite_and_debug_ignored (args : Args) (o d : bool) (s : State) :
  main G_eqb G_leb G_str G_int C (with_flags args o d) s
  = main G_eqb G_leb G_str G_int C args s.
Proof.
  reflexivity.
Qed.

(** X11: in reduction-file mode [--spectrograph] and [--binning] are not
    read: the spectrograph and the binning come from the reduction
    file. *)
Theorem reduction_mode_ignores_raw_options
        (args : Args) (sp1 sp2 b1 b2 : option string) (s : State) :
  pypeit_file args <> None ->
  main G_eqb G_leb G_str G_int C (with_raw_options args sp1 b1) s
  = main G_eqb G_leb G_str G_int C (with_raw_options args sp2 b2) s.
Proof.
  intros Hmode. unfold main, resolve_inputs, with_raw_options. cbn [pypeit_file].
  destruct (pypeit_file args) as [file|]; [reflexivity | contradiction].
Qed.

End MainFacts.

(* ================================================================== *)
(** ** [main]: the loop as a whole *)

Lemma for_each_raises {S A : Type} (l : list A) (body : A -> M S unit)
      (s s' : S) (e : exn) :
  for_each l body s = (s', inl e) ->
  exists x s0, In x l /\ body x s0 = (s', inl e).
Proof.
  revert s. induction l as [|x l IH]; intros s H; simpl in H.
  - discriminate H.
  - unfold bind in H. destruct (body x s) as [s1 [e1|[]]] eqn:Hx.
    + injection H as <- <-. exists x, s. split; [left; reflexivity | exact Hx].
    + destruct (IH s1 H) as (y & s0 & Hy & Hb). exists y, s0.
      split; [right; exact Hy | exact Hb].
Qed.

Section LoopAsAWhole.
Local Open Scope list_scope.
Context {W G Num Par Img Pix Edges Slits : Type}.
Context (G_eqb G_leb : G -> G -> bool) (G_str : G -> string) (G_int : G -> exn + Z).
Variable C : @Collab W G Num Par Img Pix Edges Slits.

Lemma main_after_resolve (args : Args) (s s1 : State) (inp : Inputs) :
  resolve_inputs G_eqb G_leb G_str G_int C args s = (s1, inr inp) ->
  main G_eqb G_leb G_str G_int C args s
  = match for_each (detectors args (in_spec inp))
            (trace_detector C args inp
               (PosixPath.join (in_redux_path inp) (master_dir args))) s1 with
    | (s2, inl e) => (s2, inl e)
    | (s2, inr _) => (s2, inr 0)
    end.
Proof.
  intros Hres. unfold main. rewrite (bind_ok _ _ _ _ _ Hres).
  unfold trace_all, bind.
  destruct (for_each _ _ s1) as [s2 [e|[]]]; reflexivity.
Qed.

(** X12: a spectrograph without detectors, and no [--detector]: once the
    inputs are resolved [main] returns 0 without any further call. *)
Theorem no_detectors_no_calls (args : Args) (s s1 : State) (inp : Inputs) :
  resolve_inputs G_eqb G_leb G_str G_int C args s = (s1, inr inp) ->
  detector args = None ->
  ndet (in_spec inp) <= 0 ->
  main G_eqb G_leb G_str G_int C args s = (s1, inr 0).
Proof.
  intros Hres Hdet Hn. rewrite (main_after_resolve _ _ _ _ Hres).
  unfold detectors, Np.arange. rewrite Hdet.
  replace (Z.to_nat (ndet (in_spec inp))) with 0%nat by lia. reflexivity.
Qed.

(** X13: once the image of a detector is ready, the pass is what the
    tracer of the chosen path makes it.  With [--use_new]: [EdgeTraceSet]
    on the spectrograph, the tracing parameters, the detector's master
    key, the master directory [join(redux_path, master_dir)], the built
    image, the detector and [auto=True], then [print] and [save] of what
    it returned, any exception dropped.  Without: [TraceSlits] on the
    same, [run] on the image's pixels, the binning, the plate scale and
    [write_qa=False], [print], and [save] of what [run] left with the
    image, any exception leaving the pass. *)
Theorem pass_calls_exact
        (args : Args) (inp : Inputs) (det : Z) (s s0 : State) (img : Img) (ps : Num) :
  let md := PosixPath.join (in_redux_path inp) (master_dir args) in
  image_ready C inp det s img ps s0 ->
  (use_new args = true ->
   forall s', edges_saved C inp md det img s0 s' \/ edges_dropped C inp md det img s0 s' ->
              trace_detector C args inp md det s = (s', inr tt))
  /\ (use_new args = false ->
      (forall s', slits_saved C inp md det img ps s0 s' ->
                  trace_detector C args inp md det s = (s', inr tt))
      /\ (forall e s', slits_raised C inp md det img ps s0 e s' ->
                       trace_detector C args inp md det s = (s', inl e))).
Proof.
  intros md Hready. split; [|intros Hlegacy; split].
  - intros Hnew s' Hout.
    exact (trace_detector_new_pass C args inp md det s s0 s' img ps Hnew Hready Hout).
  - intros s' Hsaved.
    exact (trace_detector_legacy_saved C args inp md det s s0 s' img ps Hlegacy Hready
             Hsaved).
  - intros e s' Hraised.
    exact (trace_detector_legacy_raised C args inp md det s s0 s' img ps e Hlegacy Hready
             Hraised).
Qed.

(** X14: on the new path an exception that leaves [main] after the inputs
    are resolved was raised, for one of the selected detectors, by the
    construction or the build of the trace image or by the computation of
    the plate scale; never by the tracer. *)
Theorem new_path_exception_origin
        (args : Args) (s s1 s' : State) (inp : Inputs) (e : exn) :
  use_new args = true ->
  resolve_inputs G_eqb G_leb G_str G_int C args s = (s1, inr inp) ->
  main G_eqb G_leb G_str G_int C args s = (s', inl e) ->
  exists (det : Z) (s0 : @State W Num),
    In det (detectors args (in_spec inp))
    /\ ((exists w', TraceImage C (in_spec inp) (in_files inp) det (in_proc_par inp)
                               (world s0) = (w', inl e))
        \/ (exists w1 img w',
               TraceImage C (in_spec inp) (in_files inp) det (in_proc_par inp) (world s0)
               = (w1, inr img)
               /\ build_image C img w1 = (w', inl e))
        \/ get_plate_scale C (in_spec inp) (in_binning inp) det = inl e).
Proof.
  intros Hnew Hres Hmain. rewrite (main_after_resolve _ _ _ _ Hres) in Hmain.
  destruct (for_each _ _ s1) as [s2 [e2|[]]] eqn:Hloop; [|discriminate Hmain].
  injection Hmain as <- <-.
  destruct (for_each_raises _ _ _ _ _ Hloop) as (det & s0 & Hdet & Hpass).
  exists det, s0. split; [exact Hdet|].
  exact (trace_detector_new_raises C args inp _ det s0 s2 e2 Hnew Hpass).
Qed.

(** X15: on the legacy path, if [main] returns at all it returns 0, and
    then every selected detector, in order, has had its image built,
    [TraceSlits.run] called with its plate scale, and [save] gone through:
    the state [main] ends in is the one the last [save] left. *)
Theorem legacy_path_completed
        (args : Args) (s s1 s2 : State) (inp : Inputs) (r : Z) :
  use_new args = false ->
  resolve_inputs G_eqb G_leb G_str G_int C args s = (s1, inr inp) ->
  main G_eqb G_leb G_str G_int C args s = (s2, inr r) ->
  r = 0
  /\ passes (legacy_pass C inp (PosixPath.join (in_redux_path inp) (master_dir args)))
            (detectors args (in_spec inp)) s1 s2.
Proof.
  intros Hnew Hres Hmain. rewrite (main_after_resolve _ _ _ _ Hres) in Hmain.
  set (md := PosixPath.join (in_redux_path inp) (master_dir args)) in *.
  destruct (for_each _ _ s1) as [s3 [e|[]]] eqn:Hloop; [discriminate Hmain|].
  injection Hmain as <- <-. split; [reflexivity|].
  apply (passes_of_run (legacy_pass C inp md) (trace_detector C args inp md));
    [|exact Hloop].
  intros det t t' Hrun.
  exact (trace_detector_legacy_inv C args inp md det t t' Hnew Hrun).
Qed.

Lemma for_each_ext (l : list Z) (f g : Z -> M (@State W Num) unit) (s : @State W Num) :
  (forall x t, f x t = g x t) -> for_each l f s = for_each l g s.
Proof.
  intros Hfg. revert s. induction l as [|x l IH]; intros s; simpl; [reflexivity|].
  unfold bind. rewrite Hfg. destruct (g x s) as [s1 [e|[]]]; [reflexivity | apply IH].
Qed.

(** X16: [main] keeps to its tracing path and to its input mode.  With
    [--use_new] nothing of the run depends on the legacy tracer, and
    without it nothing depends on the new tracer; in reduction-file mode
    nothing depends on the spectrograph loader, and in raw-trace-file mode
    nothing depends on the [PypeIt] constructor: replace them by anything,
    the calls made, the state reached and the result are the same. *)
Theorem main_keeps_to_mode_and_path (args : Args) (s : State) :
  (use_new args = true ->
   forall make run save,
     main G_eqb G_leb G_str G_int (with_legacy_tracer C make run save) args s
     = main G_eqb G_leb G_str G_int C args s)
  /\ (use_new args = false ->
      forall make save,
        main G_eqb G_leb G_str G_int (with_new_tracer C make save) args s
        = main G_eqb G_leb G_str G_int C args s)
  /\ (pypeit_file args <> None ->
      forall load,
        main G_eqb G_leb G_str G_int (with_loader C load) args s
        = main G_eqb G_leb G_str G_int C args s)
  /\ (pypeit_file args = None ->
      forall make,
        main G_eqb G_leb G_str G_int (with_PypeIt C make) args s
        = main G_eqb G_leb G_str G_int C args s).
Proof.
  split; [|split; [|split]].
  - intros Hnew make run save.
    assert (Hbody : forall inp md det t,
               trace_detector (with_legacy_tracer C make run save) args inp md det t
               = trace_detector C args inp md det t).
    { intros inp md det t. unfold trace_detector. rewrite Hnew. reflexivity. }
    unfold main, bind.
    change (resolve_inputs G_eqb G_leb G_str G_int
                           (with_legacy_tracer C make run save) args s)
      with (resolve_inputs G_eqb G_leb G_str G_int C args s).
    destruct (resolve_inputs G_eqb G_leb G_str G_int C args s) as [s1 [e|inp]];
      [reflexivity|].
    unfold trace_all, bind.
    rewrite (for_each_ext _ _ _ s1 (Hbody inp _)). reflexivity.
  - intros Hnew make save.
    assert (Hbody : forall inp md det t,
               trace_detector (with_new_tracer C make save) args inp md det t
               = trace_detector C args inp md det t).
    { intros inp md det t. unfold trace_detector. rewrite Hnew. reflexivity. }
    unfold main, bind.
    change (resolve_inputs G_eqb G_leb G_str G_int
                           (with_new_tracer C make save) args s)
      with (resolve_inputs G_eqb G_leb G_str G_int C args s).
    destruct (resolve_inputs G_eqb G_leb G_str G_int C args s) as [s1 [e|inp]];
      [reflexivity|].
    unfold trace_all, bind.
    rewrite (for_each_ext _ _ _ s1 (Hbody inp _)). reflexivity.
  - intros Hmode load. unfold main, resolve_inputs.
    destruct (pypeit_file args) as [file|]; [reflexivity | contradiction].
  - intros Hmode make. unfold main, resolve_inputs. rewrite Hmode. reflexivity.
Qed.

End LoopAsAWhole.

(* ================================================================== *)
(** ** The further properties at work in the small observatory *)

Local Open Scope list_scope.

Lemma detectors_range_witness :
  List.length (detectors (Demo.raw_args "/data/raw/trace.fits" true) Demo.three_det)
  = Z.to_nat 3
  /\ (forall i, (i < Z.to_nat 3)%nat ->
                nth_error (detectors (Demo.raw_args "/data/raw/trace.fits" true)
                                     Demo.three_det) i
                = Some (Z.of_nat i + 1))
  /\ (forall d, In d (detectors (Demo.raw_args "/data/raw/trace.fits" true)
                                Demo.three_det)
                <-> 1 <= d <= 3).
Proof.
  apply (proj1 (detectors_range (Demo.raw_args "/data/raw/trace.fits" true)
                  Demo.three_det)).
  reflexivity.
Defined.

(** [--detector 0] on three detectors: the plate scale of detector 3. *)
Lemma plate_scale_wraps_around_witness :
  get_plate_scale (Demo.collab [] Demo.second_fails) Demo.three_det "2,1"%string 0
  = inr (1 * (3 # 10))%Q.
Proof.
  apply (plate_scale_wraps_around (Demo.collab [] Demo.second_fails) Demo.three_det
           "2,1"%string 0 2 1 (mkDetectorPar (3 # 10)%Q)).
  - reflexivity.
  - simpl. lia.
  - reflexivity.
Defined.

(** [--detector 7] on three detectors. *)
Lemma detector_out_of_range_witness :
  trace_detector (Demo.collab [] Demo.second_fails)
    (Demo.raw_args_det "/data/raw/trace.fits" 7 true)
    (mkInputs Demo.three_det "A_1"%string "1,1"%string ["/data/raw/trace.fits"%string]
              "/data/raw"%string "traceframe"%string "slitedges"%string)
    "/data/raw/Masters"%string 7 Demo.start
  = (mkState Demo.disk [(CTraceImage 7 ["/data/raw/trace.fits"%string], None);
                        (CBuildImage 7, None)],
     inl IndexError).
Proof.
  apply (detector_out_of_range (Demo.collab [] Demo.second_fails)
           (Demo.raw_args_det "/data/raw/trace.fits" 7 true)
           (mkInputs Demo.three_det "A_1"%string "1,1"%string
                     ["/data/raw/trace.fits"%string]
                     "/data/raw"%string "traceframe"%string "slitedges"%string)
           "/data/raw/Masters"%string 7 1 1 Demo.start Demo.disk Demo.disk 7 7).
  - reflexivity.
  - simpl. lia.
  - reflexivity.
  - reflexivity.
Defined.

Lemma output_paths_absolute_witness :
  PosixPath.isabs "/home/observer"%string = true
  /\ PosixPath.isabs (PosixPath.join "/home/observer" "Masters") = true.
Proof.
  apply (output_paths_absolute Z.eqb Z.leb Py.str (fun g => inr g)
           (Demo.collab [] Demo.second_fails)
           (Demo.raw_args "trace.fits" true)
           (mkState ["trace.fits"%string] [])
           (mkState ["trace.fits"%string]
                    [(CLoadSpectrograph (Some "three_det"%string), None)])
           (mkInputs Demo.three_det "A_1"%string "1,1"%string
                     ["/home/observer/trace.fits"%string]
                     "/home/observer"%string "traceframe"%string "slitedges"%string)).
  - intros w. reflexivity.
  - reflexivity.
Defined.

Lemma missing_pypeit_file_witness :
  Demo.run [1; 2] Demo.second_fails (Demo.file_args "/redux/none.pypeit" None true)
  = (Demo.start, inl (FileNotFoundError "File does not exist: /redux/none.pypeit")).
Proof.
  apply (missing_pypeit_file Z.eqb Z.leb Py.str (fun g => inr g)
           (Demo.collab [1; 2] Demo.second_fails)
           (Demo.file_args "/redux/none.pypeit" None true)
           "/redux/none.pypeit"%string Demo.start).
  - reflexivity.
  - reflexivity.
Defined.

Lemma empty_calib_column_witness :
  Demo.run [] Demo.second_fails (Demo.file_args "/redux/run.pypeit" None true)
  = (mkState Demo.disk [(CPypeIt "/redux/run.pypeit" "/redux", None)], inl IndexError).
Proof.
  apply (empty_calib_column Z.eqb Z.leb Py.str (fun g => inr g)
           (Demo.collab [] Demo.second_fails)
           (Demo.file_args "/redux/run.pypeit" None true)
           "/redux/run.pypeit"%string Demo.start Demo.disk
           (mkPypeItObj Demo.three_det (Demo.table []) Demo.pars)).
  - reflexivity.
  - reflexivity.
  - reflexivity.
  - reflexivity.
  - reflexivity.
Defined.

(** Group 2 exists, but every frame of the table is a bias frame. *)
Lemma no_trace_frames_witness :
  main Z.eqb Z.leb Py.str (fun g => inr g)
       (Demo.collab_with_table (Demo.bias_table [2; 1]))
       (Demo.file_args "/redux/run.pypeit" (Some 2) false) Demo.start
  = (mkState Demo.disk [(CPypeIt "/redux/run.pypeit" "/redux", None)], inl IndexError).
Proof.
  apply (no_trace_frames Z.eqb Z.leb Py.str (fun g => inr g)
           (Demo.collab_with_table (Demo.bias_table [2; 1]))
           (Demo.file_args "/redux/run.pypeit" (Some 2) false)
           "/redux/run.pypeit"%string Demo.start Demo.disk
           (mkPypeItObj Demo.three_det (Demo.bias_table [2; 1]) Demo.pars) 2 2).
  - reflexivity.
  - reflexivity.
  - reflexivity.
  - reflexivity.
  - reflexivity.
  - reflexivity.
  - reflexivity.
Defined.

Lemma reduction_mode_ignores_raw_options_witness :
  Demo.run [1; 2] Demo.second_fails
    (with_raw_options (Demo.file_args "/redux/run.pypeit" None true)
                      (Some "no_such"%string) (Some "4,4"%string))
  = Demo.run [1; 2] Demo.second_fails
      (with_raw_options (Demo.file_args "/redux/run.pypeit" None true) None None).
Proof.
  apply (reduction_mode_ignores_raw_options Z.eqb Z.leb Py.str (fun g => inr g)
           (Demo.collab [1; 2] Demo.second_fails)
           (Demo.file_args "/redux/run.pypeit" None true)
           (Some "no_such"%string) None (Some "4,4"%string) None Demo.start).
  discriminate.
Defined.

Lemma no_detectors_no_calls_witness :
  main Z.eqb Z.leb Py.str (fun g => inr g) (Demo.collab_with_spec Demo.no_det)
       (Demo.raw_args "/data/raw/trace.fits" true) Demo.start
  = (mkState Demo.disk [(CLoadSpectrograph (Some "three_det"%string), None)], inr 0).
Proof.
  apply (no_detectors_no_calls Z.eqb Z.leb Py.str (fun g => inr g)
           (Demo.collab_with_spec Demo.no_det)
           (Demo.raw_args "/data/raw/trace.fits" true) Demo.start
           (mkState Demo.disk [(CLoadSpectrograph (Some "three_det"%string), None)])
           (mkInputs Demo.no_det "A_1"%string "1,1"%string
                     ["/data/raw/trace.fits"%string]
                     "/data/raw"%string "traceframe"%string "slitedges"%string)).
  - reflexivity.
  - reflexivity.
  - simpl. lia.
Defined.

(** [--use_new --detector 3]: the pass of detector 3 saves its edges. *)
Lemma pass_calls_exact_witness :
  trace_detector (Demo.collab [] Demo.second_fails)
    (Demo.raw_args_det "/data/raw/trace.fits" 3 true)
    (mkInputs Demo.three_det "A_1"%string "1,1"%string ["/data/raw/trace.fits"%string]
              "/data/raw"%string "traceframe"%string "slitedges"%string)
    "/data/raw/Masters"%string 3 Demo.start
  = (mkState (Demo.disk ++ ["/data/raw/Masters/MasterEdges_A_1_03"%string])
             [(CTraceImage 3 ["/data/raw/trace.fits"%string], None);
              (CBuildImage 3, None);
              (CEdgeTraceSet 3 "A_1_03" "/data/raw/Masters", None);
              (CPrint 3, None);
              (CEdgeSave 3 "A_1_03" "/data/raw/Masters", None)],
     inr tt).
Proof.
  apply (proj1 (pass_calls_exact (Demo.collab [] Demo.second_fails)
                  (Demo.raw_args_det "/data/raw/trace.fits" 3 true)
                  (mkInputs Demo.three_det "A_1"%string "1,1"%string
                            ["/data/raw/trace.fits"%string]
                            "/data/raw"%string "traceframe"%string "slitedges"%string)
                  3 Demo.start
                  (mkState Demo.disk
                           [(CTraceImage 3 ["/data/raw/trace.fits"%string], None);
                            (CBuildImage 3, None)])
                  3 (3 # 10)%Q
                  ltac:(do 3 eexists; repeat split))
               eq_refl).
  left. do 4 eexists. repeat split.
Defined.

(** [--use_new --detector 7] on three detectors: the [IndexError] that
    leaves [main] comes from the plate scale. *)
Lemma new_path_exception_origin_witness :
  let C := Demo.collab [] Demo.second_fails in
  let inp := mkInputs Demo.three_det "A_1"%string "1,1"%string
                      ["/data/raw/trace.fits"%string]
                      "/data/raw"%string "traceframe"%string "slitedges"%string in
  exists (det : Z) (s0 : @State Demo.World Q),
    In det [7]
    /\ ((exists w', TraceImage C Demo.three_det ["/data/raw/trace.fits"%string] det
                               "traceframe"%string (world s0) = (w', inl IndexError))
        \/ (exists w1 img w',
               TraceImage C Demo.three_det ["/data/raw/trace.fits"%string] det
                          "traceframe"%string (world s0) = (w1, inr img)
               /\ build_image C img w1 = (w', inl IndexError))
        \/ get_plate_scale C Demo.three_det "1,1"%string det = inl IndexError).
Proof.
  cbv zeta.
  apply (new_path_exception_origin Z.eqb Z.leb Py.str (fun g => inr g)
           (Demo.collab [] Demo.second_fails)
           (Demo.raw_args_det "/data/raw/trace.fits" 7 true) Demo.start
           (mkState Demo.disk [(CLoadSpectrograph (Some "three_det"%string), None)])
           (mkState Demo.disk [(CLoadSpectrograph (Some "three_det"%string), None);
                               (CTraceImage 7 ["/data/raw/trace.fits"%string], None);
                               (CBuildImage 7, None)])
           (mkInputs Demo.three_det "A_1"%string "1,1"%string
                     ["/data/raw/trace.fits"%string]
                     "/data/raw"%string "traceframe"%string "slitedges"%string)
           IndexError).
  - reflexivity.
  - reflexivity.
  - reflexivity.
Defined.

(** The legacy tracer on detector 3 alone, where it does not raise. *)
Lemma legacy_path_completed_witness :
  let C := Demo.collab [] Demo.second_fails in
  let args := Demo.raw_args_det "/data/raw/trace.fits" 3 false in
  let inp := mkInputs Demo.three_det "A_1"%string "1,1"%string
                      ["/data/raw/trace.fits"%string]
                      "/data/raw"%string "traceframe"%string "slits"%string in
  0 = 0
  /\ passes (legacy_pass C inp "/data/raw/Masters") [3]
            (mkState Demo.disk [(CLoadSpectrograph (Some "three_det"%string), None)])
            (fst (Demo.run [] Demo.second_fails args)).
Proof.
  cbv zeta.
  apply (legacy_path_completed Z.eqb Z.leb Py.str (fun g => inr g)
           (Demo.collab [] Demo.second_fails)
           (Demo.raw_args_det "/data/raw/trace.fits" 3 false) Demo.start
           (mkState Demo.disk [(CLoadSpectrograph (Some "three_det"%string), None)])
           (fst (Demo.run [] Demo.second_fails
                          (Demo.raw_args_det "/data/raw/trace.fits" 3 false)))
           (mkInputs Demo.three_det "A_1"%string "1,1"%string
                     ["/data/raw/trace.fits"%string]
                     "/data/raw"%string "traceframe"%string "slits"%string)
           0).
  - reflexivity.
  - reflexivity.
  - reflexivity.
Defined.

(** With [--use_new], a legacy tracer that always raises changes
    nothing. *)
Lemma main_keeps_to_mode_and_path_witness :
  main Z.eqb Z.leb Py.str (fun g => inr g)
       (with_legacy_tracer (Demo.collab [] Demo.second_fails)
          (fun _ _ _ _ _ w => (w, inl (CollabError "no legacy tracer")))
          (fun _ _ _ _ _ w => (w, inl (CollabError "no legacy tracer")))
          (fun _ _ w => (w, inl (CollabError "no legacy tracer"))))
       (Demo.raw_args "/data/raw/trace.fits" true) Demo.start
  = Demo.run [] Demo.second_fails (Demo.raw_args "/data/raw/trace.fits" true).
Proof.
  apply (proj1 (main_keeps_to_mode_and_path Z.eqb Z.leb Py.str (fun g => inr g)
                  (Demo.collab [] Demo.second_fails)
                  (Demo.raw_args "/data/raw/trace.fits" true) Demo.start)).
  reflexivity.
Defined.
